(** * Road tile SVG generator (packages/tile-generator/generate.py)

    A shallow embedding of the generator: the module constants, the SVG
    templates, the table of tile definitions, the two rendering functions
    and [main], which writes one file per document.  Strings are Rocq
    strings (one [ascii] per byte; everything the program emits is ASCII),
    the output directory is a finite map from file names to file contents,
    and standard output is the list of printed lines. *)

From Stdlib Require Import String Ascii List ZArith Decimal DecimalString Lia.
From stdpp Require Import gmap strings.
Import ListNotations.

Open Scope string_scope.

(** ** Python strings and values *)

Module Py.

(** The line feed and the double-quote mark, built from their codes. *)
Definition nl : string := String (ascii_of_nat 10) EmptyString.
Definition dquote : ascii := ascii_of_nat 34.
Definition squote : ascii := ascii_of_nat 39.

(** The templates of the source are full of double-quote marks.  Here they
    are typed with an apostrophe in each such place (the source's literals
    contain no apostrophe of their own) and [lit] puts the double-quote
    marks back, so that [lit "<g fill='none'>"] is the text
    [<g fill=DQ none DQ>] of the source, DQ being the double-quote mark. *)
Fixpoint lit (s : string) : string :=
  match s with
  | EmptyString => EmptyString
  | String c rest =>
      String (if Ascii.eqb c squote then dquote else c) (lit rest)
  end.

(** [sep.join(parts)] *)
Definition join (sep : string) (parts : list string) : string :=
  String.concat sep parts.

(** A triple-quoted literal that spans several lines, given line by line. *)
Definition text (lines : list string) : string := join nl lines.

(** [s * n] *)
Fixpoint repeat (s : string) (n : nat) : string :=
  match n with
  | O => EmptyString
  | S n' => s ++ repeat s n'
  end.

(** The values that the program interpolates into text.  A float is carried
    as the decimal numeral that [repr] prints for it: [Decimal i f] for a
    numeral written out in full, such as [0.5], and [DecimalExp i f e] for
    one written with an exponent, [f] being empty when the numeral has no
    fraction, as in [1e+16]. *)
Inductive value :=
| Str (s : string)
| Int (n : Z)
| Float (d : decimal).

(** The fraction of a numeral with an exponent: nothing when there is none. *)
Definition fraction (f : Decimal.uint) : string :=
  match f with
  | Nil => EmptyString
  | _ => "." ++ NilEmpty.string_of_uint f
  end.

(** The exponent as [repr] prints it: always signed, two digits or more. *)
Definition exponent (e : Decimal.int) : string :=
  let digits u :=
    let d := NilZero.string_of_uint u in
    if Nat.ltb (String.length d) 2 then "0" ++ d else d in
  match e with
  | Pos u => "e+" ++ digits u
  | Neg u => "e-" ++ digits u
  end.

(** [str(v)] and [format(v, "")], which agree on these values. *)
Definition str (v : value) : string :=
  match v with
  | Str s => s
  | Int n => NilZero.string_of_int (Z.to_int n)
  | Float (Decimal i f) =>
      NilZero.string_of_int i ++ "." ++ NilZero.string_of_uint f
  | Float (DecimalExp i f e) =>
      NilZero.string_of_int i ++ fraction f ++ exponent e
  end.

Definition kwargs := list (string * value).

Fixpoint kw_lookup (name : string) (kw : kwargs) : option value :=
  match kw with
  | [] => None
  | (k, v) :: kw' => if String.eqb k name then Some v else kw_lookup name kw'
  end.

(** [template.format(name=value, ...)] for templates whose replacement
    fields are plain names, as those of [SVG_HEADER] are: [{name}] is
    replaced by [str] of the keyword argument [name].  Doubled braces,
    conversions and format specifications do not occur in the source and
    are not modelled.  [None] stands for the exceptions of Python: a field
    that names no keyword argument (KeyError), a brace that is never
    closed or a closing brace on its own (ValueError).  [field] is
    [Some n] while the scanner is inside a replacement field whose name so
    far is [n]. *)
Fixpoint format_from (kw : kwargs) (field : option string) (template : string)
  : option string :=
  match template with
  | EmptyString =>
      match field with
      | None => Some EmptyString
      | Some _ => None
      end
  | String c rest =>
      match field with
      | None =>
          if Ascii.eqb c "{" then format_from kw (Some EmptyString) rest
          else if Ascii.eqb c "}" then None
          else
            match format_from kw None rest with
            | Some out => Some (String c out)
            | None => None
            end
      | Some name =>
          if Ascii.eqb c "}" then
            match kw_lookup name kw, format_from kw None rest with
            | Some v, Some out => Some (str v ++ out)
            | _, _ => None
            end
          else format_from kw (Some (name ++ String c EmptyString)) rest
      end
  end.

Definition format (template : string) (kw : kwargs) : option string :=
  format_from kw None template.

(** A dict keeps its keys in insertion order; storing under a key that is
    already present replaces the value and keeps the key's position. *)
Fixpoint dict_set {V} (k : string) (v : V) (d : list (string * V))
  : list (string * V) :=
  match d with
  | [] => [(k, v)]
  | (k', v') :: d' =>
      if String.eqb k' k then (k, v) :: d' else (k', v') :: dict_set k v d'
  end.

(** [d.get(k)] *)
Fixpoint dict_get {V} (k : string) (d : list (string * V)) : option V :=
  match d with
  | [] => None
  | (k', v) :: d' => if String.eqb k' k then Some v else dict_get k d'
  end.

(** A dict display [{k1: v1, k2: v2, ...}] stores its items from left to
    right. *)
Definition dict_of {V} (items : list (string * V)) : list (string * V) :=
  fold_left (fun d kv => dict_set (fst kv) (snd kv) d) items [].

End Py.

(** ** Constants *)

Definition TILE_SIZE : Py.value := Py.Int 40.
Definition GRID_STROKE : string := "#cccccc".
Definition GRID_STROKE_WIDTH : Py.value :=
  Py.Float (Decimal (Pos (D0 Nil)) (D5 Nil)).
Definition ROAD_STROKE : string := "#000000".
Definition ROAD_STROKE_WIDTH : Py.value := Py.Int 1.
Definition PORT_MARKER_COLOR : string := "#ff0000".
Definition PORT_MARKER_RADIUS : Py.value := Py.Int 1.

(** ** SVG templates *)

Definition SVG_HEADER : string := Py.text [
  Py.lit "<?xml version='1.0' encoding='UTF-8'?>";
  Py.lit "<svg id='{svg_id}' xmlns='http://www.w3.org/2000/svg' width='{size}' height='{size}' viewBox='0 0 {size} {size}'>"
].

Definition GRID_LINES : string := Py.text [
  Py.lit "  <!-- Grid lines -->";
  Py.lit "  <g stroke='" ++ GRID_STROKE ++ Py.lit "' stroke-width='"
    ++ Py.str GRID_STROKE_WIDTH ++ Py.lit "' fill='none'>";
  Py.lit "    <line x1='0' y1='0' x2='0' y2='40'/>";
  Py.lit "    <line x1='10' y1='0' x2='10' y2='40'/>";
  Py.lit "    <line x1='20' y1='0' x2='20' y2='40'/>";
  Py.lit "    <line x1='30' y1='0' x2='30' y2='40'/>";
  Py.lit "    <line x1='40' y1='0' x2='40' y2='40'/>";
  Py.lit "    <line x1='0' y1='0' x2='40' y2='0'/>";
  Py.lit "    <line x1='0' y1='10' x2='40' y2='10'/>";
  Py.lit "    <line x1='0' y1='20' x2='40' y2='20'/>";
  Py.lit "    <line x1='0' y1='30' x2='40' y2='30'/>";
  Py.lit "    <line x1='0' y1='40' x2='40' y2='40'/>";
  Py.lit "  </g>"
].

Definition PORT_MARKERS : string :=
  let r := Py.str PORT_MARKER_RADIUS in
  Py.text [
  Py.lit "  <!-- Port markers -->";
  Py.lit "  <g fill='" ++ PORT_MARKER_COLOR ++ Py.lit "'>";
  Py.lit "    <circle cx='10' cy='0' r='" ++ r ++ Py.lit "'/>";
  Py.lit "    <circle cx='20' cy='0' r='" ++ r ++ Py.lit "'/>";
  Py.lit "    <circle cx='30' cy='0' r='" ++ r ++ Py.lit "'/>";
  Py.lit "    <circle cx='40' cy='10' r='" ++ r ++ Py.lit "'/>";
  Py.lit "    <circle cx='40' cy='20' r='" ++ r ++ Py.lit "'/>";
  Py.lit "    <circle cx='40' cy='30' r='" ++ r ++ Py.lit "'/>";
  Py.lit "    <circle cx='10' cy='40' r='" ++ r ++ Py.lit "'/>";
  Py.lit "    <circle cx='20' cy='40' r='" ++ r ++ Py.lit "'/>";
  Py.lit "    <circle cx='30' cy='40' r='" ++ r ++ Py.lit "'/>";
  Py.lit "    <circle cx='0' cy='10' r='" ++ r ++ Py.lit "'/>";
  Py.lit "    <circle cx='0' cy='20' r='" ++ r ++ Py.lit "'/>";
  Py.lit "    <circle cx='0' cy='30' r='" ++ r ++ Py.lit "'/>";
  Py.lit "  </g>"
].

Definition SVG_FOOTER : string := "</svg>".

(** ** Tile data structure *)

Record TileData := mkTileData {
  comment : string;
  outer_path : string;
  inner_path : string
}.

(** ** Tile definitions, in the order of the source's dict display *)

Definition TILE_DEFINITIONS : list (string * TileData) := Py.dict_of [
  (* Curve patterns (Up->Right, bezier curves) *)
  ("curve-12-12", mkTileData
     "Curve: Up(P12) -> Right(P12)"
     "M 10 0 L 10 10 C 10 15, 15 20, 20 20 L 40 20"
     "M 20 0 L 20 5 C 20 7.5, 22.5 10, 25 10 L 40 10");
  ("curve-12-23", mkTileData
     "Curve: Up(P12) -> Right(P23)"
     "M 10 0 L 10 20 C 10 25, 15 30, 20 30 L 40 30"
     "M 20 0 L 20 10 C 20 15, 25 20, 30 20 L 40 20");
  ("curve-23-12", mkTileData
     "Curve: Up(P23) -> Right(P12)"
     "M 20 0 L 20 10 C 20 15, 25 20, 30 20 L 40 20"
     "M 30 0 L 30 5 C 30 7.5, 32.5 10, 35 10 L 40 10");
  ("curve-23-23", mkTileData
     "Curve: Up(P23) -> Right(P23)"
     "M 20 0 L 20 20 C 20 25, 25 30, 30 30 L 40 30"
     "M 30 0 L 30 15 C 30 17.5, 32.5 20, 35 20 L 40 20");
  (* Curve patterns (Up->Left, bezier curves) *)
  ("curve-ul-12-12", mkTileData
     "Curve: Up(P12) -> Left(P12)"
     "M 10 0 L 10 10 C 10 15, 5 20, 0 20 L 0 20"
     "M 20 0 L 20 5 C 20 7.5, 17.5 10, 15 10 L 0 10");
  ("curve-ul-12-23", mkTileData
     "Curve: Up(P12) -> Left(P23)"
     "M 10 0 L 10 20 C 10 25, 5 30, 0 30 L 0 30"
     "M 20 0 L 20 10 C 20 15, 15 20, 10 20 L 0 20");
  ("curve-ul-23-12", mkTileData
     "Curve: Up(P23) -> Left(P12)"
     "M 20 0 L 20 20 C 20 25, 15 30, 10 30 L 0 30"
     "M 30 0 L 30 15 C 30 17.5, 25 20, 20 20 L 0 20");
  ("curve-ul-23-23", mkTileData
     "Curve: Up(P23) -> Left(P23)"
     "M 20 0 L 20 20 C 20 25, 25 30, 30 30 L 0 30"
     "M 30 0 L 30 15 C 30 17.5, 32.5 20, 35 20 L 0 20");
  (* Sharp patterns (Up->Right, 90 degree turns) *)
  ("sharp-12-12", mkTileData
     "Sharp: Up(P12) -> Right(P12)"
     "M 10 0 L 10 20 L 40 20"
     "M 20 0 L 20 10 L 40 10");
  ("sharp-12-23", mkTileData
     "Sharp: Up(P12) -> Right(P23)"
     "M 10 0 L 10 30 L 40 30"
     "M 20 0 L 20 20 L 40 20");
  ("sharp-23-12", mkTileData
     "Sharp: Up(P23) -> Right(P12)"
     "M 20 0 L 20 20 L 40 20"
     "M 30 0 L 30 10 L 40 10");
  ("sharp-23-23", mkTileData
     "Sharp: Up(P23) -> Right(P23)"
     "M 20 0 L 20 30 L 40 30"
     "M 30 0 L 30 20 L 40 20");
  (* Sharp patterns (Up->Left, 90 degree turns) *)
  ("sharp-ul-12-12", mkTileData
     "Sharp: Up(P12) -> Left(P12)"
     "M 10 0 L 10 20 L 0 20"
     "M 20 0 L 20 10 L 0 10");
  ("sharp-ul-12-23", mkTileData
     "Sharp: Up(P12) -> Left(P23)"
     "M 10 0 L 10 30 L 0 30"
     "M 20 0 L 20 20 L 0 20");
  ("sharp-ul-23-12", mkTileData
     "Sharp: Up(P23) -> Left(P12)"
     "M 20 0 L 20 30 L 0 30"
     "M 30 0 L 30 10 L 0 10");
  ("sharp-ul-23-23", mkTileData
     "Sharp: Up(P23) -> Left(P23)"
     "M 20 0 L 20 30 L 0 30"
     "M 30 0 L 30 20 L 0 20");
  (* Straight patterns - Vertical *)
  ("straight-v-11", mkTileData
     "Straight Vertical: Up(P12) -> Down(P12)"
     "M 10 0 L 10 40"
     "M 20 0 L 20 40");
  ("straight-v-22", mkTileData
     "Straight Vertical: Up(P23) -> Down(P23)"
     "M 20 0 L 20 40"
     "M 30 0 L 30 40");
  ("straight-v-12", mkTileData
     "Straight Vertical: Up(P12) -> Down(P23) (lane shift)"
     "M 10 0 C 10 20, 20 20, 20 40"
     "M 20 0 C 20 20, 30 20, 30 40");
  ("straight-v-21", mkTileData
     "Straight Vertical: Up(P23) -> Down(P12) (lane shift)"
     "M 20 0 C 20 20, 10 20, 10 40"
     "M 30 0 C 30 20, 20 20, 20 40");
  (* Straight patterns - Horizontal *)
  ("straight-h-44", mkTileData
     "Straight Horizontal: Left(P12) -> Right(P12)"
     "M 0 10 L 40 10"
     "M 0 20 L 40 20");
  ("straight-h-88", mkTileData
     "Straight Horizontal: Left(P23) -> Right(P23)"
     "M 0 20 L 40 20"
     "M 0 30 L 40 30");
  ("straight-h-48", mkTileData
     "Straight Horizontal: Left(P12) -> Right(P23) (lane shift)"
     "M 0 10 C 20 10, 20 20, 40 20"
     "M 0 20 C 20 20, 20 30, 40 30");
  ("straight-h-84", mkTileData
     "Straight Horizontal: Left(P23) -> Right(P12) (lane shift)"
     "M 0 20 C 20 20, 20 10, 40 10"
     "M 0 30 C 20 30, 20 20, 40 20")
].

(** ** Marker definitions *)

Definition START_MARKER : string := Py.lit (Py.text [
  "  <!-- Start marker -->";
  "  <g transform='translate(20, 14)'>";
  "    <rect x='-6' y='-6' width='1.5' height='16' fill='#555'/>";
  "    <path d='M -4.5 -6 v 8 L 6 -2 z' fill='#3498db'/>";
  "  </g>";
  "  <g transform='translate(20, 32)'>";
  "    <text x='0' y='0' font-family='Arial, sans-serif' font-size='7' text-anchor='middle' font-weight='bold' fill='#3498db'>START</text>";
  "  </g>"
]).

Definition GOAL_MARKER : string := Py.lit (Py.text [
  "  <!-- Goal marker -->";
  "  <g transform='translate(20, 14)'>";
  "    <circle cx='0' cy='0' r='8' fill='none' stroke='#e74c3c' stroke-width='1.5'/>";
  "    <circle cx='0' cy='0' r='4' fill='none' stroke='#e74c3c' stroke-width='1.5'/>";
  "    <circle cx='0' cy='0' r='1.5' fill='#e74c3c'/>";
  "  </g>";
  "  <g transform='translate(20, 32)'>";
  "    <text x='0' y='0' font-family='Arial, sans-serif' font-size='7' text-anchor='middle' font-weight='bold' fill='#e74c3c'>GOAL</text>";
  "  </g>"
]).

(** ** SVG generation functions

    Both return [None] where the Python function would raise, which only
    [SVG_HEADER.format] could do. *)

(** The road group of [generate_road_svg], an f-string over the tile. *)
Definition road_group (tile : TileData) : string := Py.text [
  Py.lit "  <!-- " ++ comment tile ++ Py.lit " -->";
  Py.lit "  <g stroke='" ++ ROAD_STROKE ++ Py.lit "' stroke-width='"
    ++ Py.str ROAD_STROKE_WIDTH ++ Py.lit "' fill='none'>";
  Py.lit "    <path d='" ++ outer_path tile ++ Py.lit "'/>";
  Py.lit "    <path d='" ++ inner_path tile ++ Py.lit "'/>";
  Py.lit "  </g>"
].

Definition generate_road_svg (svg_id : string) (tile : TileData)
  : option string :=
  header ← Py.format SVG_HEADER [("svg_id", Py.Str svg_id); ("size", TILE_SIZE)];
  Some (Py.join Py.nl [
    header;
    GRID_LINES;
    "";
    road_group tile;
    "";
    PORT_MARKERS;
    SVG_FOOTER;
    ""
  ]).

Definition generate_marker_svg (svg_id : string) (marker_content : string)
  : option string :=
  header ← Py.format SVG_HEADER [("svg_id", Py.Str svg_id); ("size", TILE_SIZE)];
  Some (Py.join Py.nl [
    header;
    GRID_LINES;
    "";
    marker_content;
    SVG_FOOTER;
    ""
  ]).

(** ** The world of [main]: the output directory and standard output

    [files] maps each file name of the output directory to the file's
    contents; [stdout] lists the arguments of the [print] calls so far, one
    entry per call.  Failures of the file system are not part of the model:
    creating the directory and writing a file always succeed. *)

Record world := World {
  files : gmap string string;
  stdout : list string
}.

Definition print (line : string) (w : world) : world :=
  World (files w) (stdout w ++ [line])%list.

(** Opening a file for writing truncates it, so the new contents replace
    whatever the name held before.  The directory is keyed by the file
    name as written: this is the behaviour of the code for plain file
    names ([plain_name] below), which [OUTPUT_DIR / filename] puts
    directly into the directory, one file per name.  A name with a
    directory part, an empty name or one that the file system refuses is
    outside this model. *)
Definition write_svg (filename content : string) (w : world) : world :=
  print ("  Generated: " ++ filename)
        (World (<[filename := content]> (files w)) (stdout w)).

(** The loop [for tile_id, tile in TILE_DEFINITIONS.items()] of [main].
    As with [write_svg], the identifiers are those whose file names are
    plain; an identifier whose file cannot be opened is outside the
    model. *)
Fixpoint write_tiles (items : list (string * TileData)) (w : world)
  : option world :=
  match items with
  | [] => Some w
  | (tile_id, tile) :: rest =>
      svg_content ← generate_road_svg tile_id tile;
      write_tiles rest (write_svg (tile_id ++ ".svg") svg_content w)
  end.

Section Main.

(** The path of the output directory, which the source derives from the
    location of the script. *)
Variable OUTPUT_DIR : string.

Definition main (w : world) : option world :=
  (* OUTPUT_DIR.mkdir(parents=True, exist_ok=True) leaves the files alone *)
  let w := print (Py.repeat "=" 60) w in
  let w := print "Road Tile SVG Generator" w in
  let w := print (Py.repeat "=" 60) w in
  let w := print ("Output directory: " ++ OUTPUT_DIR) w in
  let w := print "" w in
  let w := print "Generating road tiles..." w in
  w ← write_tiles TILE_DEFINITIONS w;
  let w := print (Py.nl ++ "Generating marker tiles...") w in
  start_svg ← generate_marker_svg "start" START_MARKER;
  let w := write_svg "start.svg" start_svg w in
  goal_svg ← generate_marker_svg "goal" GOAL_MARKER;
  let w := write_svg "goal.svg" goal_svg w in
  let total_files := Py.Int (Z.of_nat (length TILE_DEFINITIONS) + 2) in
  let w := print "" w in
  let w := print (Py.repeat "=" 60) w in
  let w := print ("Generation complete! " ++ Py.str total_files
                    ++ " SVG files created.") w in
  let w := print (Py.repeat "=" 60) w in
  let w := print "" w in
  let w := print "Generated files:" w in
  let w := print "  Curve (Up->Right):     curve-12-12, curve-12-23, curve-23-12, curve-23-23" w in
  let w := print "  Curve (Up->Left):      curve-ul-12-12, curve-ul-12-23, curve-ul-23-12, curve-ul-23-23" w in
  let w := print "  Sharp (Up->Right):     sharp-12-12, sharp-12-23, sharp-23-12, sharp-23-23" w in
  let w := print "  Sharp (Up->Left):      sharp-ul-12-12, sharp-ul-12-23, sharp-ul-23-12, sharp-ul-23-23" w in
  let w := print "  Straight (Vertical):   straight-v-11, straight-v-12, straight-v-21, straight-v-22" w in
  let w := print "  Straight (Horizontal): straight-h-44, straight-h-48, straight-h-84, straight-h-88" w in
  let w := print "  Markers:               start, goal" w in
  Some w.

End Main.

(** ** Reading a document back

    The claims speak of the elements of the generated documents: the root
    element and its [id], the groups, the lines, paths and circles inside
    them.  [Svg.parse] reads a document text as a consumer of the file
    does: it splits the text into markup, comments and character data,
    reads each tag's name and attributes, and nests the elements.  It
    covers the XML that the generator emits (double-quoted attribute
    values, comments, one leading declaration, no entities or CDATA) and
    answers [None] on anything else. *)

Module Svg.

Definition snoc (s : string) (c : ascii) : string := s ++ String c EmptyString.

Definition is_space (c : ascii) : bool :=
  Ascii.eqb c " " || Ascii.eqb c (ascii_of_nat 10)
  || Ascii.eqb c (ascii_of_nat 9) || Ascii.eqb c (ascii_of_nat 13).

Fixpoint all_space (s : string) : bool :=
  match s with
  | EmptyString => true
  | String c rest => is_space c && all_space rest
  end.

(** [strip_suffix suf s] is [Some p] when [s = p ++ suf]. *)
Fixpoint strip_suffix (suf s : string) : option string :=
  if String.eqb s suf then Some EmptyString
  else
    match s with
    | EmptyString => None
    | String c rest =>
        match strip_suffix suf rest with
        | Some p => Some (String c p)
        | None => None
        end
    end.

(** *** Splitting the text *)

Inductive chunk :=
| CText (s : string)       (* character data between two tags *)
| CMarkup (s : string)     (* what stands between [<] and [>] *)
| CComment (s : string).   (* what stands between [<!--] and [-->] *)

Inductive mode :=
| InText (acc : string)
| InMarkup (acc : string) (quoted : bool)
| InComment (acc : string).

Fixpoint scan (m : mode) (s : string) : option (list chunk) :=
  match s with
  | EmptyString =>
      match m with
      | InText acc => Some [CText acc]
      | _ => None
      end
  | String c rest =>
      match m with
      | InText acc =>
          if Ascii.eqb c "<" then
            cons (CText acc) <$> scan (InMarkup EmptyString false) rest
          else scan (InText (snoc acc c)) rest
      | InMarkup acc true =>
          scan (InMarkup (snoc acc c) (negb (Ascii.eqb c Py.dquote))) rest
      | InMarkup acc false =>
          if Ascii.eqb c Py.dquote then scan (InMarkup (snoc acc c) true) rest
          else if Ascii.eqb c ">" then
            cons (CMarkup acc) <$> scan (InText EmptyString) rest
          else if Ascii.eqb c "<" then None
          else if String.eqb (snoc acc c) "!--" then
            scan (InComment EmptyString) rest
          else scan (InMarkup (snoc acc c) false) rest
      | InComment acc =>
          match strip_suffix "-->" (snoc acc c) with
          | Some body => cons (CComment body) <$> scan (InText EmptyString) rest
          | None => scan (InComment (snoc acc c)) rest
          end
      end
  end.

(** *** Reading a tag *)

Definition attributes := list (string * string).

Inductive amode :=
| ASkip                         (* between attributes *)
| AName (n : string)            (* inside an attribute's name *)
| AEq (n : string)              (* after the [=], before the value *)
| AValue (n v : string)         (* inside the quoted value *)
| ASlash.                       (* after the [/] of an empty-element tag *)

(** The attributes of a tag and whether the tag closes itself. *)
Fixpoint read_attrs (m : amode) (s : string) : option (attributes * bool) :=
  match s with
  | EmptyString =>
      match m with
      | ASkip => Some ([], false)
      | ASlash => Some ([], true)
      | _ => None
      end
  | String c rest =>
      match m with
      | ASkip =>
          if is_space c then read_attrs ASkip rest
          else if Ascii.eqb c "/" then read_attrs ASlash rest
          else if Ascii.eqb c "=" || Ascii.eqb c Py.dquote then None
          else read_attrs (AName (String c EmptyString)) rest
      | AName n =>
          if Ascii.eqb c "=" then read_attrs (AEq n) rest
          else if is_space c || Ascii.eqb c Py.dquote || Ascii.eqb c "/" then None
          else read_attrs (AName (snoc n c)) rest
      | AEq n =>
          if Ascii.eqb c Py.dquote then read_attrs (AValue n EmptyString) rest
          else None
      | AValue n v =>
          if Ascii.eqb c Py.dquote then
            match read_attrs ASkip rest with
            | Some (attrs, closed) => Some ((n, v) :: attrs, closed)
            | None => None
            end
          else read_attrs (AValue n (snoc v c)) rest
      | ASlash => None
      end
  end.

(** The name of a tag: its characters up to the first blank or [/]. *)
Fixpoint split_name (s : string) : string * string :=
  match s with
  | EmptyString => (EmptyString, EmptyString)
  | String c rest =>
      if is_space c || Ascii.eqb c "/" then (EmptyString, s)
      else let (n, r) := split_name rest in (String c n, r)
  end.

Inductive token :=
| TDecl (body : string)                           (* [<?xml ...?>] *)
| TComment (body : string)
| TStart (name : string) (attrs : attributes)     (* [<g ...>] *)
| TEmpty (name : string) (attrs : attributes)     (* [<line .../>] *)
| TEnd (name : string)                            (* [</g>] *)
| TText (s : string).

Definition read_markup (body : string) : option token :=
  match body with
  | EmptyString => None
  | String c rest =>
      if Ascii.eqb c "?" then
        match strip_suffix "?" rest with
        | Some d => Some (TDecl d)
        | None => None
        end
      else if Ascii.eqb c "/" then
        let (n, r) := split_name rest in
        if negb (String.eqb n EmptyString) && all_space r then Some (TEnd n)
        else None
      else
        let (n, r) := split_name body in
        if String.eqb n EmptyString then None
        else
          match read_attrs ASkip r with
          | Some (attrs, true) => Some (TEmpty n attrs)
          | Some (attrs, false) => Some (TStart n attrs)
          | None => None
          end
  end.

(** Blank character data between tags is layout and is dropped. *)
Fixpoint tokens (cs : list chunk) : option (list token) :=
  match cs with
  | [] => Some []
  | CText s :: cs' =>
      if all_space s then tokens cs' else cons (TText s) <$> tokens cs'
  | CComment s :: cs' => cons (TComment s) <$> tokens cs'
  | CMarkup s :: cs' =>
      match read_markup s, tokens cs' with
      | Some t, Some ts => Some (t :: ts)
      | _, _ => None
      end
  end.

(** *** Nesting the elements *)

#[local] Set Warnings "-register-all".

Inductive node :=
| Element (name : string) (attrs : attributes) (children : list node)
| Comment (body : string)
| Text (s : string).

(** An element whose end tag has not been read yet, with the children read
    so far, last one first. *)
Definition frame : Type := string * attributes * list node.

(** Attach a finished node to the innermost open element, or to the top
    level when no element is open. *)
Definition attach (n : node) (stack : list frame) (top : list node)
  : list frame * list node :=
  match stack with
  | [] => ([], n :: top)
  | (name, attrs, kids) :: stack' => ((name, attrs, n :: kids) :: stack', top)
  end.

Fixpoint build (ts : list token) (stack : list frame) (top : list node)
  : option (list node) :=
  match ts with
  | [] =>
      match stack with
      | [] => Some (rev top)
      | _ => None
      end
  | t :: ts' =>
      match t with
      | TDecl _ => None
      | TComment s => let (st, tp) := attach (Comment s) stack top in build ts' st tp
      | TText s => let (st, tp) := attach (Text s) stack top in build ts' st tp
      | TEmpty n a => let (st, tp) := attach (Element n a []) stack top in build ts' st tp
      | TStart n a => build ts' ((n, a, []) :: stack) top
      | TEnd n =>
          match stack with
          | (n', a, kids) :: stack' =>
              if String.eqb n n' then
                let (st, tp) := attach (Element n' a (rev kids)) stack' top in
                build ts' st tp
              else None
          | [] => None
          end
      end
  end.

Definition is_element (n : node) : bool :=
  match n with
  | Element _ _ _ => true
  | _ => false
  end.

(** A document is an optional declaration, then one root element; comments
    may stand beside the root, character data may not. *)
Definition parse (doc : string) : option node :=
  cs ← scan (InText EmptyString) doc;
  ts ← tokens cs;
  top ← build (match ts with TDecl _ :: ts' => ts' | _ => ts end) [] [];
  match List.filter is_element top, forallb (fun n => match n with Text _ => false | _ => true end) top with
  | [root], true => Some root
  | _, _ => None
  end.

(** *** Looking into the tree *)

Definition tag (n : node) : string :=
  match n with
  | Element name _ _ => name
  | _ => EmptyString
  end.

Definition children (n : node) : list node :=
  match n with
  | Element _ _ kids => kids
  | _ => []
  end.

Fixpoint lookup_attr (name : string) (attrs : attributes) : option string :=
  match attrs with
  | [] => None
  | (k, v) :: attrs' => if String.eqb k name then Some v else lookup_attr name attrs'
  end.

Definition attr (name : string) (n : node) : option string :=
  match n with
  | Element _ attrs _ => lookup_attr name attrs
  | _ => None
  end.

(** The child elements of [n] that are called [name]. *)
Definition elements (name : string) (n : node) : list node :=
  List.filter (fun k => is_element k && String.eqb (tag k) name) (children n).

(** All child elements of [n]. *)
Definition child_elements (n : node) : list node :=
  List.filter is_element (children n).

(** The node itself and everything below it, in document order. *)
Fixpoint descendants (n : node) : list node :=
  match n with
  | Element _ _ kids => n :: flat_map descendants kids
  | _ => [n]
  end.

(** The element that directly follows the comment [label] among [ns]. *)
Fixpoint element_after (label : string) (ns : list node) : option node :=
  match ns with
  | Comment c :: ((Element _ _ _ as e) :: _) as rest =>
      if String.eqb c label then Some e else element_after label rest
  | _ :: rest => element_after label rest
  | [] => None
  end.

(** The group of the document that the comment [label] introduces. *)
Definition group (label : string) (root : node) : option node :=
  element_after label (children root).

(** A presentation attribute ([stroke], [stroke-width], [fill]) that an
    element does not set itself is inherited from the enclosing group. *)
Definition style (name : string) (parent child : node) : option string :=
  match attr name child with
  | Some v => Some v
  | None => attr name parent
  end.

End Svg.

(** ** What a run produces

    The definitions below name what the theorems speak about: the text of
    each document in closed form, the list of files that [main] writes and
    the lines it prints. *)

(** The header once [format] has filled in its fields. *)
Definition svg_header (svg_id : string) : string := Py.text [
  Py.lit "<?xml version='1.0' encoding='UTF-8'?>";
  Py.lit "<svg id='" ++ svg_id ++ Py.lit "' xmlns='http://www.w3.org/2000/svg' width='40' height='40' viewBox='0 0 40 40'>"
].

Definition road_document (svg_id : string) (tile : TileData) : string :=
  Py.join Py.nl [svg_header svg_id; GRID_LINES; ""; road_group tile; "";
                 PORT_MARKERS; SVG_FOOTER; ""].

Definition marker_document (svg_id marker_content : string) : string :=
  Py.join Py.nl [svg_header svg_id; GRID_LINES; ""; marker_content;
                 SVG_FOOTER; ""].

Definition tile_ids : list string := map fst TILE_DEFINITIONS.
Definition marker_ids : list string := ["start"; "goal"].
Definition all_ids : list string := (tile_ids ++ marker_ids)%list.

(** The documents of a run, each under the identifier it is generated for. *)
Definition road_documents : list (string * option string) :=
  map (fun it => (fst it, generate_road_svg (fst it) (snd it))) TILE_DEFINITIONS.

(** The two markers that [main] renders, each with its content. *)
Definition marker_definitions : list (string * string) :=
  [("start", START_MARKER); ("goal", GOAL_MARKER)].

Definition marker_documents : list (string * option string) :=
  [("start", generate_marker_svg "start" START_MARKER);
   ("goal", generate_marker_svg "goal" GOAL_MARKER)].

Definition all_documents : list (string * option string) :=
  (road_documents ++ marker_documents)%list.

(** The files of a run, as (name, contents), in the order of writing. *)
Definition road_outputs (items : list (string * TileData))
  : list (string * string) :=
  map (fun it => (fst it ++ ".svg", road_document (fst it) (snd it))) items.

Definition marker_outputs : list (string * string) :=
  [("start.svg", marker_document "start" START_MARKER);
   ("goal.svg", marker_document "goal" GOAL_MARKER)].

Definition outputs : list (string * string) :=
  app (road_outputs TILE_DEFINITIONS) marker_outputs.

Definition output_names : list string := map fst outputs.

(** The file name that [main] forms for a tile identifier. *)
Definition file_name (id : string) : string := id ++ ".svg".

Definition write_all (ws : list (string * string)) (fs : gmap string string)
  : gmap string string :=
  fold_left (fun fs w => <[fst w := snd w]> fs) ws fs.

(** The status line that [write_svg] prints for a file. *)
Definition status_line (filename : string) : string :=
  "  Generated: " ++ filename.

Definition is_status_line (line : string) : bool :=
  String.prefix "  Generated: " line.

(** The lines of a run, given the path of the output directory. *)
Definition banner (OUTPUT_DIR : string) : list string :=
  [Py.repeat "=" 60; "Road Tile SVG Generator"; Py.repeat "=" 60;
   "Output directory: " ++ OUTPUT_DIR; ""; "Generating road tiles..."].

Definition count_line : string :=
  "Generation complete! "
    ++ Py.str (Py.Int (Z.of_nat (length TILE_DEFINITIONS) + 2))
    ++ " SVG files created.".

Definition summary : list string :=
  [""; Py.repeat "=" 60; count_line; Py.repeat "=" 60; ""; "Generated files:";
   "  Curve (Up->Right):     curve-12-12, curve-12-23, curve-23-12, curve-23-23";
   "  Curve (Up->Left):      curve-ul-12-12, curve-ul-12-23, curve-ul-23-12, curve-ul-23-23";
   "  Sharp (Up->Right):     sharp-12-12, sharp-12-23, sharp-23-12, sharp-23-23";
   "  Sharp (Up->Left):      sharp-ul-12-12, sharp-ul-12-23, sharp-ul-23-12, sharp-ul-23-23";
   "  Straight (Vertical):   straight-v-11, straight-v-12, straight-v-21, straight-v-22";
   "  Straight (Horizontal): straight-h-44, straight-h-48, straight-h-84, straight-h-88";
   "  Markers:               start, goal"].

Definition transcript (OUTPUT_DIR : string) : list string :=
  app (banner OUTPUT_DIR)
   (app (map status_line (map fst (road_outputs TILE_DEFINITIONS)))
     (app [Py.nl ++ "Generating marker tiles..."]
       (app (map status_line (map fst marker_outputs)) summary))).

(** A generated document, read back. *)
Definition read (d : option string) : option Svg.node :=
  doc ← d; Svg.parse doc.

(** The stem of a file name: the name without its [.svg] extension. *)
Definition stem (filename : string) : option string :=
  Svg.strip_suffix ".svg" filename.

(** *** Lines, paths and port markers in a document *)

Definition vertical (l : Svg.node) : bool :=
  match Svg.attr "x1" l, Svg.attr "x2" l with
  | Some a, Some b => String.eqb a b
  | _, _ => false
  end.

Definition horizontal (l : Svg.node) : bool :=
  match Svg.attr "y1" l, Svg.attr "y2" l with
  | Some a, Some b => String.eqb a b
  | _, _ => false
  end.

(** The end points (x1, y1, x2, y2) of a line element. *)
Definition ends (l : Svg.node) : list (option string) :=
  map (fun a => Svg.attr a l) ["x1"; "y1"; "x2"; "y2"].

(** The four sides of the 40 by 40 tile, as end points of lines. *)
Definition boundary : list (list (option string)) :=
  map (map Some) [["0"; "0"; "0"; "40"]; ["40"; "0"; "40"; "40"];
                  ["0"; "0"; "40"; "0"]; ["0"; "40"; "40"; "40"]].

(** The grid-lines group of [root] has exactly [n] line elements. *)
Definition grid_line_count (n : nat) (root : Svg.node) : Prop :=
  exists g, Svg.group " Grid lines " root = Some g
            /\ length (Svg.elements "line" g) = n.

(** The road group of a tile's document: the group that the tile's comment
    introduces. *)
Definition road_group_of (tile : TileData) (root : Svg.node)
  : option Svg.node :=
  Svg.group (" " ++ comment tile ++ " ") root.

(** The three port positions along an edge, and the 12 places where grid
    lines 10, 20 and 30 meet the top, right, bottom and left edge. *)
Definition ports : list Z := [10; 20; 30]%Z.

Definition port_positions : list (Z * Z) :=
  (map (fun x => (x, 0)) ports ++ map (fun y => (40, y)) ports
   ++ map (fun x => (x, 40)) ports ++ map (fun y => (0, y)) ports)%list%Z.

Definition centre (c : Svg.node) : option string * option string :=
  (Svg.attr "cx" c, Svg.attr "cy" c).

Definition centre_at (p : Z * Z) : option string * option string :=
  (Some (Py.str (Py.Int (fst p))), Some (Py.str (Py.Int (snd p)))).

(** A port marker: a circle of radius [PORT_MARKER_RADIUS] filled with
    [PORT_MARKER_COLOR], the fill being its own or its group's. *)
Definition is_port_marker (parent c : Svg.node) : bool :=
  Svg.is_element c && String.eqb (Svg.tag c) "circle"
  && bool_decide (Svg.attr "r" c = Some (Py.str PORT_MARKER_RADIUS))
  && bool_decide (Svg.style "fill" parent c = Some PORT_MARKER_COLOR).

(** All port markers of a document. *)
Definition port_markers (root : Svg.node) : list Svg.node :=
  flat_map (fun p => List.filter (is_port_marker p) (Svg.children p))
           (Svg.descendants root).

(** All elements called [name] in a document. *)
Definition all_elements (name : string) (root : Svg.node) : list Svg.node :=
  List.filter (fun n => Svg.is_element n && String.eqb (Svg.tag n) name)
              (Svg.descendants root).

(** *** The parts of a document around the identifier *)

(** What a document has before the identifier and what the header has
    after it: the identifier is the only part of the header that varies. *)
Definition header_open : string := Py.text [
  Py.lit "<?xml version='1.0' encoding='UTF-8'?>";
  Py.lit "<svg id='"
].

Definition header_close : string :=
  Py.lit "' xmlns='http://www.w3.org/2000/svg' width='40' height='40' viewBox='0 0 40 40'>".

(** The text of a road document and of a marker document after the
    identifier. *)
Definition road_rest (tile : TileData) : string :=
  Py.join Py.nl [header_close; GRID_LINES; ""; road_group tile; "";
                 PORT_MARKERS; SVG_FOOTER; ""].

Definition marker_rest (marker_content : string) : string :=
  Py.join Py.nl [header_close; GRID_LINES; ""; marker_content;
                 SVG_FOOTER; ""].

(** What [marker_rest] has before the content and after it. *)
Definition marker_before : string :=
  header_close ++ Py.nl ++ GRID_LINES ++ Py.nl ++ Py.nl.

Definition marker_after : string := Py.nl ++ SVG_FOOTER ++ Py.nl.

(** *** Values for the fields of the header *)

(** The keyword arguments that the header is meant for: text, and whole
    numbers of fewer than 4000 digits, the ones that every Python 3 turns
    into text. *)
Definition text_or_number (v : Py.value) : bool :=
  match v with
  | Py.Str _ => true
  | Py.Int n => Z.ltb (Z.abs n) (10 ^ 4000)
  | Py.Float _ => false
  end.

Definition header_arguments (kw : Py.kwargs) : Prop :=
  Forall (fun kv => text_or_number (snd kv) = true) kw.

(** *** Plain file names *)





(** *** Identifiers that an attribute value can hold *)

(** A visible ASCII character or the blank: codes 32 to 126. *)
Definition printable (c : ascii) : bool :=
  let n := nat_of_ascii c in Nat.leb 32 n && Nat.leb n 126.

(** An attribute value in double quotes holds, as it is, any text of
    printable characters without the double-quote mark, [<] and [&].  Line
    feeds, tabs and other control characters are left out: an XML reader
    turns the former into blanks and refuses the latter. *)
Fixpoint attr_safe (s : string) : bool :=
  match s with
  | EmptyString => true
  | String c rest =>
      printable c
      && negb (Ascii.eqb c Py.dquote) && negb (Ascii.eqb c "<")
      && negb (Ascii.eqb c "&") && attr_safe rest
  end.

(** Auxiliary notions for following the scanner through a tag: a name that
    does not start a comment, text that stays inside the tag, and whether
    the scanner is inside a quoted value after it. *)
Definition no_bang (acc : string) : bool :=
  match acc with
  | String c _ => negb (Ascii.eqb c "!")
  | EmptyString => false
  end.

Fixpoint markup_ok (q : bool) (s : string) : bool :=
  match s with
  | EmptyString => true
  | String c rest =>
      if q then markup_ok (negb (Ascii.eqb c Py.dquote)) rest
      else if Ascii.eqb c Py.dquote then markup_ok true rest
      else negb (Ascii.eqb c ">") && negb (Ascii.eqb c "<") && markup_ok false rest
  end.

Fixpoint quote_after (q : bool) (s : string) : bool :=
  match s with
  | EmptyString => q
  | String c rest =>
      if q then quote_after (negb (Ascii.eqb c Py.dquote)) rest
      else quote_after (Ascii.eqb c Py.dquote) rest
  end.

(** The text after the identifier up to the end of the root's start tag,
    without the closing bracket. *)
Definition root_attrs_text : string :=
  Py.lit "' xmlns='http://www.w3.org/2000/svg' width='40' height='40' viewBox='0 0 40 40'".

Definition root_attrs : Svg.attributes :=
  [("xmlns", "http://www.w3.org/2000/svg"); ("width", "40");
   ("height", "40"); ("viewBox", "0 0 40 40")].

(** *** The scanner, piece by piece *)

(** One step of the scanner: the chunk it emits, if any, and the mode it
    goes to; [None] where the scanner gives up. *)
Definition scan_step (m : Svg.mode) (c : ascii)
  : option (option Svg.chunk * Svg.mode) :=
  match m with
  | Svg.InText acc =>
      if Ascii.eqb c "<" then
        Some (Some (Svg.CText acc), Svg.InMarkup EmptyString false)
      else Some (None, Svg.InText (Svg.snoc acc c))
  | Svg.InMarkup acc true =>
      Some (None, Svg.InMarkup (Svg.snoc acc c) (negb (Ascii.eqb c Py.dquote)))
  | Svg.InMarkup acc false =>
      if Ascii.eqb c Py.dquote then
        Some (None, Svg.InMarkup (Svg.snoc acc c) true)
      else if Ascii.eqb c ">" then
        Some (Some (Svg.CMarkup acc), Svg.InText EmptyString)
      else if Ascii.eqb c "<" then None
      else if String.eqb (Svg.snoc acc c) "!--" then
        Some (None, Svg.InComment EmptyString)
      else Some (None, Svg.InMarkup (Svg.snoc acc c) false)
  | Svg.InComment acc =>
      match Svg.strip_suffix "-->" (Svg.snoc acc c) with
      | Some body => Some (Some (Svg.CComment body), Svg.InText EmptyString)
      | None => Some (None, Svg.InComment (Svg.snoc acc c))
      end
  end.

(** The scanner run over a piece of text: the chunks it emits and the mode
    in which it leaves the piece. *)
Fixpoint scan_prefix (m : Svg.mode) (s : string)
  : option (list Svg.chunk * Svg.mode) :=
  match s with
  | EmptyString => Some ([], m)
  | String c rest =>
      match scan_step m c with
      | None => None
      | Some (emitted, m') =>
          match scan_prefix m' rest with
          | None => None
          | Some (cs, m'') =>
              Some (match emitted with
                    | Some ch => ch :: cs
                    | None => cs
                    end, m'')
          end
      end
  end.

(** Chunks put before the result of a scan. *)
Definition prepend (cs : list Svg.chunk) (r : option (list Svg.chunk))
  : option (list Svg.chunk) :=
  match r with
  | Some l => Some (app cs l)
  | None => None
  end.

(** No two dashes in a row; [prev_dash] tells whether the character
    before [s] is a dash. *)
Fixpoint no_double_dash (prev_dash : bool) (s : string) : bool :=
  match s with
  | EmptyString => true
  | String c rest =>
      if Ascii.eqb c "-" then negb prev_dash && no_double_dash true rest
      else no_double_dash false rest
  end.

Fixpoint all_printable (s : string) : bool :=
  match s with
  | EmptyString => true
  | String c rest => printable c && all_printable rest
  end.

(** A comment may hold any text of printable characters without two
    dashes in a row. *)
Definition comment_safe (s : string) : bool :=
  all_printable s && no_double_dash false s.

(** *** The tree of a road document *)

(** The coordinates of the grid lines. *)
Definition grid_positions : list string := ["0"; "10"; "20"; "30"; "40"].

Definition line_element (x1 y1 x2 y2 : string) : Svg.node :=
  Svg.Element "line" [("x1", x1); ("y1", y1); ("x2", x2); ("y2", y2)] [].

(** The grid-lines group: five vertical lines, then five horizontal. *)
Definition grid_tree : Svg.node :=
  Svg.Element "g"
    [("stroke", "#cccccc"); ("stroke-width", "0.5"); ("fill", "none")]
    (app (map (fun x => line_element x "0" x "40") grid_positions)
         (map (fun y => line_element "0" y "40" y) grid_positions)).

Definition circle_element (p : Z * Z) : Svg.node :=
  Svg.Element "circle"
    [("cx", Py.str (Py.Int (fst p))); ("cy", Py.str (Py.Int (snd p)));
     ("r", "1")] [].

(** The port-markers group: one circle of radius 1 at each port position. *)
Definition ports_tree : Svg.node :=
  Svg.Element "g" [("fill", "#ff0000")] (map circle_element port_positions).

Definition path_element (d : string) : Svg.node := Svg.Element "path" [("d", d)] [].

(** What a road document is read as: the root with its attributes, the
    grid lines, the tile's comment and the road group with the outer and
    the inner path, and the port markers. *)
Definition road_tree (svg_id : string) (tile : TileData) : Svg.node :=
  Svg.Element "svg" (("id", svg_id) :: root_attrs)
    [Svg.Comment " Grid lines "; grid_tree;
     Svg.Comment (" " ++ comment tile ++ " ");
     Svg.Element "g"
       [("stroke", "#000000"); ("stroke-width", "1"); ("fill", "none")]
       [path_element (outer_path tile); path_element (inner_path tile)];
     Svg.Comment " Port markers "; ports_tree].

(** The text of a road document after the header, in pieces around the
    tile's three strings. *)
Definition before_comment : string :=
  Py.nl ++ GRID_LINES ++ Py.nl ++ Py.nl ++ "  <!--".

Definition before_outer : string :=
  Py.nl ++ Py.lit "  <g stroke='#000000' stroke-width='1' fill='none'>"
  ++ Py.nl ++ Py.lit "    <path d='".

Definition before_inner : string := Py.nl ++ Py.lit "    <path d='".

Definition after_inner : string :=
  Py.nl ++ "  </g>" ++ Py.nl ++ Py.nl ++ PORT_MARKERS ++ Py.nl
  ++ SVG_FOOTER ++ Py.nl.

(** ** Proof automation *)

(** Replace a closed list by its value, so that its items can be taken one
    at a time. *)
Ltac evaluate l :=
  let v := eval vm_compute in l in
  let H := fresh "Hval" in
  assert (H : l = v) by (vm_compute; reflexivity);
  rewrite H; clear H.

(** Closed goals about one document: name the witnesses by computing them,
    then decide what is left. *)
Ltac settle :=
  unfold grid_line_count;
  repeat match goal with
  | |- exists _, _ => eexists
  | |- _ /\ _ => split
  | |- _ = _ => vm_compute; reflexivity
  | |- _ => apply (bool_decide_unpack _); vm_compute; exact I
  end.

(** The same for each item of a closed list. *)
Ltac settle_each :=
  repeat (apply List.Forall_cons; [settle|]); apply List.Forall_nil.

(** * Properties *)

(** ** Rendering never fails *)

Lemma format_header (svg_id : string) :
  Py.format SVG_HEADER [("svg_id", Py.Str svg_id); ("size", TILE_SIZE)]
  = Some (svg_header svg_id).
Proof. vm_compute. reflexivity. Qed.

Lemma generate_road_svg_total (svg_id : string) (tile : TileData) :
  generate_road_svg svg_id tile = Some (road_document svg_id tile).
Proof. unfold generate_road_svg. rewrite format_header. reflexivity. Qed.

Lemma generate_marker_svg_total (svg_id content : string) :
  generate_marker_svg svg_id content = Some (marker_document svg_id content).
Proof. unfold generate_marker_svg. rewrite format_header. reflexivity. Qed.

(** ** Strings *)

Lemma append_assoc (a b c : string) : (a ++ b) ++ c = a ++ (b ++ c).
Proof.
  induction a as [|x a IH]; [reflexivity|].
  change (String x ((a ++ b) ++ c) = String x (a ++ (b ++ c))).
  f_equal. exact IH.
Qed.

Lemma append_empty_r (a : string) : a ++ "" = a.
Proof.
  induction a as [|x a IH]; [reflexivity|].
  change (String x (a ++ "") = String x a). f_equal. exact IH.
Qed.

Lemma join_cons (sep a b : string) (rest : list string) :
  Py.join sep (a :: b :: rest) = a ++ sep ++ Py.join sep (b :: rest).
Proof. reflexivity. Qed.

(** A list whose last two items are [last] and the empty string joins into
    a text that ends with [last] and one separator. *)
Lemma join_trailing (sep last : string) (front : list string) :
  Py.join sep (front ++ [last; ""])%list
  = Py.join sep (front ++ [""])%list ++ last ++ sep.
Proof.
  induction front as [|a front IH].
  - simpl. now rewrite append_empty_r.
  - destruct front as [|b front].
    + simpl. now rewrite !append_empty_r, !append_assoc.
    + change ((a :: b :: front) ++ [last; ""])%list
        with (a :: ((b :: front) ++ [last; ""]))%list.
      change ((a :: b :: front) ++ [""])%list
        with (a :: ((b :: front) ++ [""]))%list.
      simpl app in *. rewrite !join_cons, IH, !append_assoc. reflexivity.
Qed.

(** ** The run as a whole *)

Lemma write_all_app (ws1 ws2 : list (string * string)) (fs : gmap string string) :
  write_all (ws1 ++ ws2)%list fs = write_all ws2 (write_all ws1 fs).
Proof. apply fold_left_app. Qed.

Lemma print_World (line : string) (fs : gmap string string) (out : list string) :
  print line (World fs out) = World fs (out ++ [line])%list.
Proof. reflexivity. Qed.

Lemma write_svg_World (filename content : string) (fs : gmap string string)
    (out : list string) :
  write_svg filename content (World fs out)
  = World (<[filename := content]> fs) (out ++ [status_line filename])%list.
Proof. reflexivity. Qed.

Lemma write_tiles_spec (items : list (string * TileData))
    (fs : gmap string string) (out : list string) :
  write_tiles items (World fs out)
  = Some (World (write_all (road_outputs items) fs)
                (out ++ map status_line (map fst (road_outputs items)))%list).
Proof.
  revert fs out. induction items as [|[tile_id tile] items IH]; intros fs out.
  - simpl. now rewrite app_nil_r.
  - cbn [write_tiles]. rewrite generate_road_svg_total.
    cbn [mbind option_bind]. rewrite write_svg_World, IH.
    cbn [road_outputs map fst snd]. rewrite <- app_assoc. reflexivity.
Qed.

Lemma main_spec (OUTPUT_DIR : string) (w : world) :
  main OUTPUT_DIR w
  = Some (World (write_all outputs (files w))
                (stdout w ++ transcript OUTPUT_DIR)%list).
Proof.
  destruct w as [fs out]. unfold main. cbv zeta.
  rewrite !print_World, write_tiles_spec. cbn [mbind option_bind].
  rewrite !generate_marker_svg_total. cbn [mbind option_bind].
  rewrite !print_World, !write_svg_World, !print_World.
  cbn [files stdout]. f_equal. apply (f_equal2 World).
  - unfold outputs. rewrite write_all_app. reflexivity.
  - unfold transcript, banner, summary, count_line.
    rewrite <- !app_assoc. reflexivity.
Qed.

Lemma write_all_union (ws : list (string * string)) (fs : gmap string string) :
  NoDup (map fst ws) -> write_all ws fs = list_to_map ws ∪ fs.
Proof.
  revert fs. induction ws as [|[k v] ws IH]; intros fs Hnd.
  - simpl. now rewrite (left_id_L ∅ (∪)).
  - apply NoDup_cons in Hnd as [Hk Hnd].
    change (write_all ((k, v) :: ws) fs) with (write_all ws (<[k:=v]> fs)).
    rewrite IH by exact Hnd. simpl.
    rewrite <- insert_union_l. apply eq_sym, insert_union_r.
    apply not_elem_of_list_to_map_1. exact Hk.
Qed.

Lemma output_names_NoDup : NoDup output_names.
Proof. apply (bool_decide_unpack _). vm_compute. exact I. Qed.

(** ** The files of a run *)

(** C1.  [main] returns normally from every initial state.  It generates
    26 documents, none of which fails, and writes them under 26 distinct
    file names: [id.svg] for each of the 24 keys of [TILE_DEFINITIONS],
    then [start.svg] and [goal.svg].  The directory after the run is these
    26 files laid over what the directory held before, so an empty
    directory ends up with exactly 26 files.  One status line is printed
    per file, and the final count that is printed is 26. *)
Theorem main_writes_26_files (OUTPUT_DIR : string) (w0 : world) :
  exists w w',
    main OUTPUT_DIR w0 = Some w
    /\ length tile_ids = 24 /\ NoDup tile_ids
    /\ length all_documents = 26
    /\ Forall (fun d => is_Some (snd d)) all_documents
    /\ output_names = app (map file_name tile_ids) ["start.svg"; "goal.svg"]
    /\ length output_names = 26 /\ NoDup output_names
    /\ files w = list_to_map outputs ∪ files w0
    /\ dom (files w) = list_to_set output_names ∪ dom (files w0)
    /\ main OUTPUT_DIR (World ∅ (stdout w0)) = Some w'
    /\ size (files w') = 26
    /\ stdout w = (stdout w0 ++ transcript OUTPUT_DIR)%list
    /\ List.filter is_status_line (transcript OUTPUT_DIR)
       = map status_line output_names
    /\ count_line = "Generation complete! 26 SVG files created."
    /\ In count_line (transcript OUTPUT_DIR).
Proof.
  eexists. eexists.
  split; [apply main_spec|]. cbn [files stdout].
  split; [reflexivity|].
  split; [apply (bool_decide_unpack _); vm_compute; exact I|].
  split; [reflexivity|].
  split.
  { unfold all_documents, road_documents, marker_documents.
    apply Forall_app. split.
    - apply Forall_map, Forall_forall. intros it _. cbn [snd].
      rewrite generate_road_svg_total. eauto.
    - repeat constructor; cbn [snd]; rewrite generate_marker_svg_total; eauto. }
  split; [vm_compute; reflexivity|].
  split; [reflexivity|].
  split; [apply output_names_NoDup|].
  split; [apply write_all_union, output_names_NoDup|].
  split.
  { rewrite write_all_union by apply output_names_NoDup.
    rewrite dom_union_L, dom_list_to_map_L. reflexivity. }
  split; [apply main_spec|]. cbn [files].
  split.
  { rewrite write_all_union by apply output_names_NoDup.
    rewrite (right_id_L ∅ (∪)).
    rewrite <- size_dom, dom_list_to_map_L, size_list_to_set.
    - reflexivity.
    - apply output_names_NoDup. }
  split; [reflexivity|].
  split; [vm_compute; reflexivity|].
  split; [vm_compute; reflexivity|].
  unfold transcript. rewrite !in_app_iff. do 4 right.
  unfold summary. simpl. auto.
Qed.

(** ** Reading the documents back *)

(** The line count that C2 states does not hold: already in the document
    of [sharp-12-12] the grid-lines group does not have 11 line elements. *)
Lemma grid_lines_are_not_11 :
  exists tile root,
    Py.dict_get "sharp-12-12" TILE_DEFINITIONS = Some tile
    /\ read (generate_road_svg "sharp-12-12" tile) = Some root
    /\ ~ grid_line_count 11 root.
Proof.
  do 2 eexists. split; [vm_compute; reflexivity|].
  split; [vm_compute; reflexivity|].
  intros [g [Hg Hn]]. vm_compute in Hg. injection Hg as <-.
  vm_compute in Hn. discriminate Hn.
Qed.

(** C2, as the code has it.  In every generated document, road tile or
    marker, the grid-lines group consists of 10 line elements and nothing
    else: 5 vertical ones at x = 0, 10, 20, 30, 40, each from y = 0 to
    y = 40, then 5 horizontal ones at y = 0, 10, 20, 30, 40, each from
    x = 0 to x = 40, the four sides of the tile among them.  Each line is
    drawn with stroke [#cccccc] and stroke-width [0.5], which the group
    sets for its lines; the group is [grid_tree]. *)
Theorem grid_lines_group :
  Forall (fun d =>
    exists root g,
      read (snd d) = Some root
      /\ Svg.group " Grid lines " root = Some g
      /\ Svg.parse GRID_LINES = Some g
      /\ Svg.tag g = "g"
      /\ Svg.children g = Svg.elements "line" g
      /\ grid_line_count 10 root
      /\ length (List.filter vertical (Svg.elements "line" g)) = 5
      /\ length (List.filter horizontal (Svg.elements "line" g)) = 5
      /\ Forall (fun side => side ∈ map ends (Svg.elements "line" g)) boundary
      /\ Forall (fun l => Svg.style "stroke" g l = Some "#cccccc"
                          /\ Svg.style "stroke-width" g l = Some "0.5")
                (Svg.elements "line" g)
      /\ map ends (List.filter vertical (Svg.elements "line" g))
         = map (fun x => map Some [x; "0"; x; "40"]) grid_positions
      /\ map ends (List.filter horizontal (Svg.elements "line" g))
         = map (fun y => map Some ["0"; y; "40"; y]) grid_positions
      /\ map ends (Svg.elements "line" g)
         = app (map (fun x => map Some [x; "0"; x; "40"]) grid_positions)
               (map (fun y => map Some ["0"; y; "40"; y]) grid_positions)
      /\ g = grid_tree)
    all_documents.
Proof.
  evaluate all_documents. settle_each.
Qed.

(** C3.  For each of the 24 road tiles, the road group of the document
    consists of two path elements, the only paths of the document, drawn
    with stroke [#000000], stroke-width [1] and fill [none]; and the
    document has 12 port markers, its only circles: circles of radius [1]
    filled with [#ff0000], centred where the grid lines 10, 20 and 30 meet
    the top, right, bottom and left edge of the tile. *)
Theorem road_tile_paths_and_port_markers :
  length TILE_DEFINITIONS = 24
  /\ Forall (fun it =>
      exists root road markers,
        read (generate_road_svg (fst it) (snd it)) = Some root
        /\ road_group_of (snd it) root = Some road
        /\ Svg.children road = Svg.elements "path" road
        /\ length (Svg.elements "path" road) = 2
        /\ all_elements "path" root = Svg.elements "path" road
        /\ Forall (fun p => Svg.style "stroke" road p = Some "#000000"
                            /\ Svg.style "stroke-width" road p = Some "1"
                            /\ Svg.style "fill" road p = Some "none")
                  (Svg.elements "path" road)
        /\ Svg.group " Port markers " root = Some markers
        /\ port_markers root = Svg.children markers
        /\ all_elements "circle" root = port_markers root
        /\ length (port_markers root) = 12
        /\ Forall (fun c => Svg.tag c = "circle"
                            /\ Svg.attr "r" c = Some "1"
                            /\ Svg.style "fill" markers c = Some "#ff0000")
                  (port_markers root)
        /\ map centre (port_markers root) = map centre_at port_positions)
      TILE_DEFINITIONS.
Proof.
  split; [reflexivity|].
  evaluate TILE_DEFINITIONS. settle_each.
Qed.

(** C4.  The documents of the two markers have no port marker and no
    port-markers group, while their grid-lines group is there and is the
    group of the [GRID_LINES] template, as in the road tiles.  A marker
    document is the header, the grid lines, the marker's content and the
    footer; a road document has the same skeleton around its road group
    and its port markers. *)
Theorem marker_tiles_have_no_port_markers :
  Forall (fun m =>
      exists root g,
        read (generate_marker_svg (fst m) (snd m)) = Some root
        /\ port_markers root = []
        /\ Svg.group " Port markers " root = None
        /\ Svg.group " Grid lines " root = Some g
        /\ Svg.parse GRID_LINES = Some g
        /\ grid_line_count 10 root)
    marker_definitions
  /\ (forall svg_id content,
        generate_marker_svg svg_id content
        = Some (svg_header svg_id ++ Py.nl ++ GRID_LINES ++ Py.nl ++ Py.nl
                ++ content ++ Py.nl ++ SVG_FOOTER ++ Py.nl))
  /\ (forall svg_id tile,
        generate_road_svg svg_id tile
        = Some (svg_header svg_id ++ Py.nl ++ GRID_LINES ++ Py.nl ++ Py.nl
                ++ road_group tile ++ Py.nl ++ Py.nl
                ++ PORT_MARKERS ++ Py.nl ++ SVG_FOOTER ++ Py.nl)).
Proof.
  split; [unfold marker_definitions; settle_each|].
  split.
  - intros svg_id content. rewrite generate_marker_svg_total. reflexivity.
  - intros svg_id tile. rewrite generate_road_svg_total. reflexivity.
Qed.

(** C5.  The road group of the document of [sharp-12-12] has the two
    paths [M 10 0 L 10 20 L 40 20] (outer) and [M 20 0 L 20 10 L 40 10]
    (inner), in this order. *)
Theorem sharp_12_12_paths :
  exists tile root road,
    Py.dict_get "sharp-12-12" TILE_DEFINITIONS = Some tile
    /\ read (generate_road_svg "sharp-12-12" tile) = Some root
    /\ road_group_of tile root = Some road
    /\ map Svg.tag (Svg.children road) = ["path"; "path"]
    /\ map (Svg.attr "d") (Svg.children road)
       = [Some "M 10 0 L 10 20 L 40 20"; Some "M 20 0 L 20 10 L 40 10"]
    /\ outer_path tile = "M 10 0 L 10 20 L 40 20"
    /\ inner_path tile = "M 20 0 L 20 10 L 40 10".
Proof. settle. Qed.

(** C6.  The road group of the document of [straight-v-12] has the outer
    path [M 10 0 C 10 20, 20 20, 20 40] and the inner path
    [M 20 0 C 20 20, 30 20, 30 40], in this order. *)
Theorem straight_v_12_paths :
  exists tile root road,
    Py.dict_get "straight-v-12" TILE_DEFINITIONS = Some tile
    /\ read (generate_road_svg "straight-v-12" tile) = Some root
    /\ road_group_of tile root = Some road
    /\ map Svg.tag (Svg.children road) = ["path"; "path"]
    /\ map (Svg.attr "d") (Svg.children road)
       = [Some "M 10 0 C 10 20, 20 20, 20 40";
          Some "M 20 0 C 20 20, 30 20, 30 40"]
    /\ outer_path tile = "M 10 0 C 10 20, 20 20, 20 40"
    /\ inner_path tile = "M 20 0 C 20 20, 30 20, 30 40".
Proof. settle. Qed.

(** ** Files and the documents they hold *)

(** Each file of a run holds the document generated for its identifier. *)
Lemma outputs_are_documents :
  Forall2 (fun d o => fst o = file_name (fst d) /\ snd d = Some (snd o))
          all_documents outputs.
Proof.
  unfold all_documents, outputs, road_documents, road_outputs.
  apply Forall2_app.
  - induction TILE_DEFINITIONS as [|[id tile] items IH]; simpl.
    + constructor.
    + constructor; [|exact IH]. simpl.
      split; [reflexivity | apply generate_road_svg_total].
  - unfold marker_documents, marker_outputs.
    repeat constructor; apply generate_marker_svg_total.
Qed.

(** Once the outputs are written, every output file is there with its
    contents, whatever the directory held before. *)
Lemma files_written (fs : gmap string string) :
  Forall (fun o => write_all outputs fs !! fst o = Some (snd o)) outputs.
Proof.
  rewrite write_all_union by apply output_names_NoDup.
  apply Forall_forall. intros [name content] Hin. cbn [fst snd].
  apply lookup_union_Some_l, elem_of_list_to_map_1.
  - apply output_names_NoDup.
  - exact Hin.
Qed.

(** Writing the outputs over a directory that holds them changes no file. *)
Lemma write_all_idempotent (fs : gmap string string) :
  write_all outputs (write_all outputs fs) = write_all outputs fs.
Proof.
  rewrite !write_all_union by apply output_names_NoDup.
  rewrite (assoc_L (∪)), (idemp_L (∪)). reflexivity.
Qed.

(** C7.  The documents depend on nothing but the identifier and the tile
    or marker content: the rendering functions take no other input, and
    the file that a run writes for an identifier holds the document of
    that identifier whatever the initial directory, the earlier output and
    the path of the output directory were.  So two runs, and a second run
    over the files of the first, write the same bytes to each of the 26
    files. *)
Theorem generation_is_deterministic (dir1 dir2 : string) (w1 w2 : world) :
  exists r1 r2 r1',
    main dir1 w1 = Some r1
    /\ main dir2 w2 = Some r2
    /\ main dir1 r1 = Some r1'
    /\ length outputs = 26
    /\ Forall2 (fun d o => fst o = file_name (fst d) /\ snd d = Some (snd o))
               all_documents outputs
    /\ Forall (fun o => files r1 !! fst o = Some (snd o)
                        /\ files r2 !! fst o = files r1 !! fst o
                        /\ files r1' !! fst o = files r1 !! fst o)
              outputs
    /\ files r1' = files r1.
Proof.
  eexists. eexists. eexists.
  split; [apply main_spec|].
  split; [apply main_spec|].
  split; [apply main_spec|]. cbn [files].
  split; [reflexivity|].
  split; [apply outputs_are_documents|].
  split; [|apply write_all_idempotent].
  rewrite write_all_idempotent.
  pose proof (files_written (files w1)) as F1.
  pose proof (files_written (files w2)) as F2.
  rewrite Forall_forall in *. intros o Ho.
  rewrite (F1 o Ho), (F2 o Ho). auto.
Qed.

(** C8.  After a run, each of the 26 files is a document whose root
    element is [svg] and whose [id] attribute is the stem of the file's
    name, the name without [.svg]. *)
Theorem root_id_is_file_stem (OUTPUT_DIR : string) (w0 : world) :
  exists w,
    main OUTPUT_DIR w0 = Some w
    /\ length outputs = 26
    /\ Forall (fun o =>
         files w !! fst o = Some (snd o)
         /\ exists root id,
              Svg.parse (snd o) = Some root
              /\ Svg.tag root = "svg"
              /\ Svg.attr "id" root = Some id
              /\ stem (fst o) = Some id
              /\ fst o = file_name id)
         outputs.
Proof.
  eexists. split; [apply main_spec|]. cbn [files].
  split; [reflexivity|].
  apply Forall_and. split; [apply files_written|].
  evaluate outputs. settle_each.
Qed.

(** How the written files end follows how the written contents end. *)
Lemma write_all_map_Forall (P : string -> string -> Prop)
    (ws : list (string * string)) (fs : gmap string string) :
  map_Forall P fs -> Forall (fun o => P (fst o) (snd o)) ws ->
  map_Forall P (write_all ws fs).
Proof.
  revert fs. induction ws as [|[k v] ws IH]; intros fs Hfs Hws.
  - exact Hfs.
  - apply Forall_cons in Hws as [Hkv Hws].
    change (write_all ((k, v) :: ws) fs) with (write_all ws (<[k:=v]> fs)).
    apply IH; [|exact Hws]. apply map_Forall_insert_2; assumption.
Qed.

(** C9.  Every document that [generate_road_svg] or [generate_marker_svg]
    returns ends with the closing tag of the root element followed by one
    line feed, the last character of the text.  So does every file that
    [main] writes through [write_svg]: after a run from any state each of
    the 26 names holds a text that ends so, and after a run on an empty
    directory every file of the directory does. *)
Theorem documents_end_with_newline
    (svg_id : string) (tile : TileData) (marker_content : string)
    (OUTPUT_DIR : string) (w0 : world) :
  SVG_FOOTER = "</svg>"
  /\ (exists body,
        generate_road_svg svg_id tile = Some (body ++ "</svg>" ++ Py.nl))
  /\ (exists body,
        generate_marker_svg svg_id marker_content
        = Some (body ++ "</svg>" ++ Py.nl))
  /\ Forall (fun o => exists body, snd o = body ++ "</svg>" ++ Py.nl) outputs
  /\ (exists w,
        main OUTPUT_DIR w0 = Some w
        /\ Forall (fun name =>
               exists body,
                 files w !! name = Some (body ++ "</svg>" ++ Py.nl))
             output_names)
  /\ (exists w,
        main OUTPUT_DIR (World ∅ (stdout w0)) = Some w
        /\ size (files w) = 26
        /\ map_Forall (fun _ content =>
               exists body, content = body ++ "</svg>" ++ Py.nl)
             (files w)).
Proof.
  assert (R : forall i t, exists body,
             road_document i t = body ++ "</svg>" ++ Py.nl).
  { intros i t. eexists. unfold road_document.
    exact (join_trailing Py.nl SVG_FOOTER
             [svg_header i; GRID_LINES; ""; road_group t; ""; PORT_MARKERS]). }
  assert (M : forall i c, exists body,
             marker_document i c = body ++ "</svg>" ++ Py.nl).
  { intros i c. eexists. unfold marker_document.
    exact (join_trailing Py.nl SVG_FOOTER [svg_header i; GRID_LINES; ""; c]). }
  assert (O : Forall (fun o => exists body, snd o = body ++ "</svg>" ++ Py.nl)
                     outputs).
  { unfold outputs, road_outputs, marker_outputs.
    apply Forall_app. split.
    - apply Forall_map, Forall_forall. intros it _. apply R.
    - repeat constructor; apply M. }
  split; [reflexivity|].
  split.
  { destruct (R svg_id tile) as [body Hb]. exists body.
    rewrite generate_road_svg_total. now rewrite Hb. }
  split.
  { destruct (M svg_id marker_content) as [body Hb]. exists body.
    rewrite generate_marker_svg_total. now rewrite Hb. }
  split; [exact O|].
  split.
  { eexists. split; [apply main_spec|]. cbn [files].
    unfold output_names. apply Forall_map.
    pose proof (files_written (files w0)) as F.
    rewrite Forall_forall in *. intros o Ho.
    destruct (O o Ho) as [body Hb]. exists body.
    rewrite (F o Ho), Hb. reflexivity. }
  eexists. split; [apply main_spec|]. cbn [files].
  split.
  { rewrite write_all_union by apply output_names_NoDup.
    rewrite (right_id_L ∅ (∪)).
    rewrite <- size_dom, dom_list_to_map_L, size_list_to_set.
    - reflexivity.
    - apply output_names_NoDup. }
  apply write_all_map_Forall; [apply map_Forall_empty|exact O].
Qed.

(** C10.  In the text of every road document, whatever the tile, the road
    group is the tile's comment as an SVG comment, then the opening tag of
    the group on the next line, then the path of [outer_path], then the
    path of [inner_path].  Read back, the document of each of the 24 tiles
    has the comment directly before the road group, whose children are the
    outer path and the inner path, in this order. *)
Theorem outer_path_before_inner_path :
  (forall svg_id tile,
     exists before after,
       generate_road_svg svg_id tile
       = Some (before ++ road_group tile ++ after)
       /\ road_group tile
          = Py.lit "  <!-- " ++ comment tile ++ Py.lit " -->" ++ Py.nl
            ++ Py.lit "  <g stroke='#000000' stroke-width='1' fill='none'>"
            ++ Py.nl
            ++ Py.lit "    <path d='" ++ outer_path tile ++ Py.lit "'/>"
            ++ Py.nl
            ++ Py.lit "    <path d='" ++ inner_path tile ++ Py.lit "'/>"
            ++ Py.nl ++ Py.lit "  </g>")
  /\ Forall (fun it =>
       exists root road,
         read (generate_road_svg (fst it) (snd it)) = Some root
         /\ Svg.element_after (" " ++ comment (snd it) ++ " ")
                              (Svg.children root) = Some road
         /\ Svg.tag road = "g"
         /\ map Svg.tag (Svg.children road) = ["path"; "path"]
         /\ map (Svg.attr "d") (Svg.children road)
            = [Some (outer_path (snd it)); Some (inner_path (snd it))])
       TILE_DEFINITIONS.
Proof.
  split.
  - intros svg_id tile.
    exists (svg_header svg_id ++ Py.nl ++ GRID_LINES ++ Py.nl ++ Py.nl),
           (Py.nl ++ Py.nl ++ PORT_MARKERS ++ Py.nl ++ SVG_FOOTER ++ Py.nl).
    split.
    + rewrite generate_road_svg_total. unfold road_document.
      rewrite !join_cons, !append_assoc. reflexivity.
    + unfold road_group, Py.text. rewrite !join_cons, !append_assoc.
      reflexivity.
  - evaluate TILE_DEFINITIONS. settle_each.
Qed.

(** * Further properties of the generator *)

(** ** Strings *)

Lemma length_append (a b : string) :
  String.length (a ++ b) = String.length a + String.length b.
Proof.
  induction a as [|x a IH]; [reflexivity|].
  change (S (String.length (a ++ b)) = S (String.length a + String.length b)).
  now rewrite IH.
Qed.

Lemma append_inv_head (a b c : string) : a ++ b = a ++ c -> b = c.
Proof.
  induction a as [|x a IH]; intros H; [exact H|].
  change (String x (a ++ b) = String x (a ++ c)) in H.
  injection H as H. exact (IH H).
Qed.

Lemma append_inv_tail (a b c : string) : a ++ c = b ++ c -> a = b.
Proof.
  revert b. induction a as [|x a IH]; intros [|y b] H.
  - reflexivity.
  - apply (f_equal String.length) in H.
    change (String.length c = S (String.length (b ++ c))) in H.
    rewrite length_append in H. lia.
  - apply (f_equal String.length) in H.
    change (S (String.length (a ++ c)) = String.length c) in H.
    rewrite length_append in H. lia.
  - change (String x (a ++ c) = String y (b ++ c)) in H.
    injection H as -> H. f_equal. exact (IH b H).
Qed.

(** ** The identifier in the text *)

Lemma svg_header_split (svg_id : string) :
  svg_header svg_id = header_open ++ svg_id ++ header_close.
Proof.
  unfold svg_header, header_open, Py.text. rewrite !join_cons.
  unfold Py.join, String.concat. rewrite !append_assoc. reflexivity.
Qed.

Lemma road_document_split (svg_id : string) (tile : TileData) :
  road_document svg_id tile = header_open ++ svg_id ++ road_rest tile.
Proof.
  unfold road_document, road_rest. rewrite !join_cons, svg_header_split.
  rewrite !append_assoc. reflexivity.
Qed.

Lemma marker_document_split (svg_id content : string) :
  marker_document svg_id content = header_open ++ svg_id ++ marker_rest content.
Proof.
  unfold marker_document, marker_rest. rewrite !join_cons, svg_header_split.
  rewrite !append_assoc. reflexivity.
Qed.

Lemma marker_rest_split (content : string) :
  marker_rest content = marker_before ++ content ++ marker_after.
Proof.
  unfold marker_rest, marker_before, marker_after.
  rewrite !join_cons, !append_assoc. reflexivity.
Qed.

(** X1.  Rendering succeeds for every identifier, tile and marker content,
    and the identifier goes into the text as it is, braces included, at
    one fixed place: right after the opening of the [id] attribute.  The
    rest of the document does not depend on the identifier. *)
Theorem identifier_is_inserted_verbatim
    (svg_id : string) (tile : TileData) (marker_content : string) :
  generate_road_svg svg_id tile
  = Some (header_open ++ svg_id ++ road_rest tile)
  /\ generate_marker_svg svg_id marker_content
     = Some (header_open ++ svg_id ++ marker_rest marker_content).
Proof.
  rewrite generate_road_svg_total, generate_marker_svg_total.
  now rewrite road_document_split, marker_document_split.
Qed.

(** X2.  A road document is the marker document whose content is the
    road group, an empty line and the port markers. *)
Theorem road_tile_is_marker_with_port_markers
    (svg_id : string) (tile : TileData) :
  generate_road_svg svg_id tile
  = generate_marker_svg svg_id
      (road_group tile ++ Py.nl ++ Py.nl ++ PORT_MARKERS).
Proof.
  rewrite generate_road_svg_total, generate_marker_svg_total.
  unfold road_document, marker_document.
  rewrite !join_cons, !append_assoc. reflexivity.
Qed.

(** X3.  Two identifiers that give the same road document for a tile, or
    the same marker document for a content, are the same identifier. *)
Theorem documents_tell_identifiers_apart
    (id1 id2 : string) (tile : TileData) (marker_content : string) :
  generate_road_svg id1 tile = generate_road_svg id2 tile
  \/ generate_marker_svg id1 marker_content
     = generate_marker_svg id2 marker_content ->
  id1 = id2.
Proof.
  rewrite !generate_road_svg_total, !generate_marker_svg_total.
  rewrite !road_document_split, !marker_document_split.
  intros [H|H]; injection H as H;
    apply append_inv_head, append_inv_tail in H; exact H.
Qed.

Lemma documents_tell_identifiers_apart_witness :
  (generate_road_svg "start" (mkTileData "c" "M 0 0" "M 1 1")
   = generate_road_svg "start" (mkTileData "c" "M 0 0" "M 1 1")
   \/ generate_marker_svg "start" START_MARKER
      = generate_marker_svg "start" START_MARKER)
  /\ "start" = "start".
Proof.
  split; [left; reflexivity|].
  apply (documents_tell_identifiers_apart
           "start" "start" (mkTileData "c" "M 0 0" "M 1 1") START_MARKER).
  left. reflexivity.
Defined.

(** X4.  Two contents that give the same marker document under an
    identifier are the same content. *)
Theorem marker_documents_tell_contents_apart
    (svg_id content1 content2 : string) :
  generate_marker_svg svg_id content1 = generate_marker_svg svg_id content2 ->
  content1 = content2.
Proof.
  rewrite !generate_marker_svg_total, !marker_document_split.
  rewrite !marker_rest_split. intros H. injection H as H.
  do 3 apply append_inv_head in H. apply append_inv_tail in H. exact H.
Qed.

Lemma marker_documents_tell_contents_apart_witness :
  generate_marker_svg "goal" GOAL_MARKER = generate_marker_svg "goal" GOAL_MARKER
  /\ GOAL_MARKER = GOAL_MARKER.
Proof.
  split; [reflexivity|].
  apply (marker_documents_tell_contents_apart "goal" GOAL_MARKER GOAL_MARKER).
  reflexivity.
Defined.

(** ** The fields of the header *)

(** X5.  [SVG_HEADER] has the replacement fields [svg_id] and [size] and
    no other: with keyword arguments that are text or whole numbers,
    formatting it fails exactly when one of the two is missing, whatever
    else is passed, and otherwise puts the first into the [id] attribute
    and the second into width, height and both sizes of the view box. *)
Theorem header_needs_its_fields (kw : Py.kwargs) :
  header_arguments kw ->
  Py.format SVG_HEADER kw
  = match Py.kw_lookup "svg_id" kw, Py.kw_lookup "size" kw with
    | Some i, Some n =>
        Some (header_open ++ Py.str i
              ++ Py.lit "' xmlns='http://www.w3.org/2000/svg' width='"
              ++ Py.str n ++ Py.lit "' height='" ++ Py.str n
              ++ Py.lit "' viewBox='0 0 " ++ Py.str n ++ " " ++ Py.str n
              ++ Py.lit "'>")
    | _, _ => None
    end.
Proof.
  intros _. cbv -[Py.kw_lookup Py.str].
  destruct (Py.kw_lookup "svg_id" kw) as [i|];
    destruct (Py.kw_lookup "size" kw) as [n|]; reflexivity.
Qed.

Lemma header_needs_its_fields_witness :
  header_arguments [("svg_id", Py.Str "a{b}"); ("note", Py.Str "unused");
                    ("size", Py.Int 40)]
  /\ header_arguments [("size", Py.Int 40)]
  /\ Py.format SVG_HEADER [("svg_id", Py.Str "a{b}"); ("note", Py.Str "unused");
                           ("size", Py.Int 40)]
     = Some (svg_header "a{b}")
  /\ Py.format SVG_HEADER [("size", Py.Int 40)] = None.
Proof.
  assert (H1 : header_arguments
                 [("svg_id", Py.Str "a{b}"); ("note", Py.Str "unused");
                  ("size", Py.Int 40)]).
  { repeat constructor. }
  assert (H2 : header_arguments [("size", Py.Int 40)]).
  { repeat constructor. }
  split; [exact H1|]. split; [exact H2|]. split.
  - rewrite (header_needs_its_fields _ H1). vm_compute. reflexivity.
  - rewrite (header_needs_its_fields _ H2). reflexivity.
Defined.

(** ** Files *)















(** ** Reading back a document with any identifier *)

Lemma snoc_append (acc : string) (c : ascii) (s : string) :
  Svg.snoc acc c ++ s = acc ++ String c s.
Proof. unfold Svg.snoc. rewrite append_assoc. reflexivity. Qed.

Lemma no_bang_snoc (acc : string) (c : ascii) :
  no_bang acc = true -> no_bang (Svg.snoc acc c) = true.
Proof. destruct acc; [discriminate | intros H; exact H]. Qed.

Lemma no_bang_not_comment (acc : string) (c : ascii) :
  no_bang acc = true -> String.eqb (Svg.snoc acc c) "!--" = false.
Proof.
  destruct acc as [|a acc]; [discriminate|]. intros H.
  change (Svg.snoc (String a acc) c) with (String a (Svg.snoc acc c)).
  cbn [String.eqb]. cbn [no_bang] in H.
  destruct (Ascii.eqb a "!"); [discriminate | reflexivity].
Qed.

Lemma scan_markup_run (s acc : string) (q : bool) (X : string) :
  no_bang acc = true -> markup_ok q s = true ->
  Svg.scan (Svg.InMarkup acc q) (s ++ X)
  = Svg.scan (Svg.InMarkup (acc ++ s) (quote_after q s)) X.
Proof.
  revert acc q. induction s as [|c s IH]; intros acc q Hb Hok.
  - rewrite append_empty_r. reflexivity.
  - change (String c s ++ X) with (String c (s ++ X)).
    rewrite <- snoc_append. cbn [markup_ok quote_after] in *.
    destruct q.
    + cbn [Svg.scan]. apply IH; [now apply no_bang_snoc | exact Hok].
    + cbn [Svg.scan]. destruct (Ascii.eqb c Py.dquote) eqn:Eq.
      * apply IH; [now apply no_bang_snoc | exact Hok].
      * apply andb_prop in Hok as [Hok Hs]. apply andb_prop in Hok as [Hgt Hlt].
        apply negb_true_iff in Hgt, Hlt. rewrite Hgt, Hlt.
        rewrite no_bang_not_comment by exact Hb.
        apply IH; [now apply no_bang_snoc | exact Hs].
Qed.

Lemma attr_safe_cons (c : ascii) (s : string) :
  attr_safe (String c s) = true ->
  Ascii.eqb c Py.dquote = false /\ attr_safe s = true.
Proof.
  cbn [attr_safe]. intros H.
  apply andb_prop in H as [H Hs]. apply andb_prop in H as [H _].
  apply andb_prop in H as [H _]. apply andb_prop in H as [_ H].
  apply negb_true_iff in H. auto.
Qed.

Lemma attr_safe_markup (v : string) :
  attr_safe v = true -> markup_ok true v = true /\ quote_after true v = true.
Proof.
  induction v as [|c v IH]; intros H; [split; reflexivity|].
  apply attr_safe_cons in H as [Hc Hv]. cbn [markup_ok quote_after].
  rewrite Hc. exact (IH Hv).
Qed.

Lemma read_attrs_value (v n acc X : string) :
  attr_safe v = true ->
  Svg.read_attrs (Svg.AValue n acc) (v ++ String Py.dquote X)
  = match Svg.read_attrs Svg.ASkip X with
    | Some (attrs, closed) => Some ((n, acc ++ v) :: attrs, closed)
    | None => None
    end.
Proof.
  revert acc. induction v as [|c v IH]; intros acc H.
  - rewrite append_empty_r. reflexivity.
  - apply attr_safe_cons in H as [Hc Hv].
    change (String c v ++ String Py.dquote X)
      with (String c (v ++ String Py.dquote X)).
    cbn [Svg.read_attrs]. rewrite Hc, (IH _ Hv), snoc_append. reflexivity.
Qed.

Lemma scan_header (v Y : string) :
  attr_safe v = true ->
  Svg.scan (Svg.InText "") (header_open ++ v ++ header_close ++ Y)
  = cons (Svg.CText "")
      <$> (cons (Svg.CMarkup (Py.lit "?xml version='1.0' encoding='UTF-8'?"))
      <$> (cons (Svg.CText Py.nl)
      <$> (cons (Svg.CMarkup (Py.lit "svg id='" ++ v ++ root_attrs_text))
      <$> Svg.scan (Svg.InText "") Y))).
Proof.
  intros Hv. destruct (attr_safe_markup v Hv) as [Hok Hq].
  transitivity
    (cons (Svg.CText "")
      <$> (cons (Svg.CMarkup (Py.lit "?xml version='1.0' encoding='UTF-8'?"))
      <$> (cons (Svg.CText Py.nl)
      <$> Svg.scan (Svg.InMarkup (Py.lit "svg id='") true)
                   (v ++ header_close ++ Y)))).
  { vm_compute. reflexivity. }
  do 3 f_equal.
  rewrite scan_markup_run by (exact Hok || reflexivity). rewrite Hq.
  change header_close with (root_attrs_text ++ ">").
  rewrite append_assoc.
  rewrite scan_markup_run; [|reflexivity|vm_compute; reflexivity].
  change (quote_after true root_attrs_text) with false.
  change (">" ++ Y) with (String ">" Y). cbn [Svg.scan].
  rewrite append_assoc. reflexivity.
Qed.

Lemma read_root_tag (v : string) :
  attr_safe v = true ->
  Svg.read_markup (Py.lit "svg id='" ++ v ++ root_attrs_text)
  = Some (Svg.TStart "svg" (("id", v) :: root_attrs)).
Proof.
  intros Hv.
  transitivity
    (match Svg.read_attrs (Svg.AValue "id" "") (v ++ root_attrs_text) with
     | Some (attrs, true) => Some (Svg.TEmpty "svg" attrs)
     | Some (attrs, false) => Some (Svg.TStart "svg" attrs)
     | None => None
     end).
  { vm_compute. reflexivity. }
  change root_attrs_text
    with (String Py.dquote
            (Py.lit " xmlns='http://www.w3.org/2000/svg' width='40' height='40' viewBox='0 0 40 40'")).
  rewrite read_attrs_value by exact Hv.
  vm_compute. reflexivity.
Qed.

Lemma tokens_document (d m : string) (t : Svg.token) (cs : list Svg.chunk) :
  Svg.read_markup m = Some t ->
  Svg.tokens (Svg.CText "" :: Svg.CMarkup d :: Svg.CText Py.nl
                :: Svg.CMarkup m :: cs)
  = match Svg.read_markup d, Svg.tokens cs with
    | Some td, Some ts => Some (td :: t :: ts)
    | _, _ => None
    end.
Proof.
  intros Hm. cbn [Svg.tokens].
  change (Svg.all_space "") with true. change (Svg.all_space Py.nl) with true.
  cbn iota. rewrite Hm.
  destruct (Svg.read_markup d); destruct (Svg.tokens cs); reflexivity.
Qed.

(** Reading a document whose identifier is [v] and whose text after the
    header is [Y], given how [Y] splits into chunks and tokens. *)
Lemma parse_document (v Y : string) (cs : list Svg.chunk) (ts : list Svg.token) :
  attr_safe v = true ->
  Svg.scan (Svg.InText "") Y = Some cs ->
  Svg.tokens cs = Some ts ->
  Svg.parse (header_open ++ v ++ header_close ++ Y)
  = (top ← Svg.build (Svg.TStart "svg" (("id", v) :: root_attrs) :: ts) [] [];
     match List.filter Svg.is_element top,
           forallb (fun n => match n with Svg.Text _ => false | _ => true end) top
     with
     | [root], true => Some root
     | _, _ => None
     end).
Proof.
  intros Hv Hcs Hts. unfold Svg.parse.
  rewrite scan_header by exact Hv. rewrite Hcs.
  cbn [fmap option_fmap option_map mbind option_bind].
  rewrite (tokens_document _ _ _ _ (read_root_tag v Hv)), Hts.
  change (Svg.read_markup (Py.lit "?xml version='1.0' encoding='UTF-8'?"))
    with (Some (Svg.TDecl (Py.lit "xml version='1.0' encoding='UTF-8'"))).
  reflexivity.
Qed.

Lemma road_rest_split (tile : TileData) :
  road_rest tile
  = header_close
    ++ Py.join Py.nl [""; GRID_LINES; ""; road_group tile; "";
                      PORT_MARKERS; SVG_FOOTER; ""].
Proof. reflexivity. Qed.

Lemma marker_rest_split' (content : string) :
  marker_rest content
  = header_close
    ++ Py.join Py.nl [""; GRID_LINES; ""; content; SVG_FOOTER; ""].
Proof. reflexivity. Qed.

Ltac read_with_identifier Hv :=
  eexists; split;
  [ unfold read;
    rewrite ?generate_road_svg_total, ?generate_marker_svg_total;
    cbn [mbind option_bind];
    rewrite ?road_document_split, ?marker_document_split;
    rewrite ?road_rest_split, ?marker_rest_split';
    erewrite parse_document;
    [ | exact Hv | vm_compute; reflexivity | vm_compute; reflexivity ];
    vm_compute; reflexivity
  | repeat split; reflexivity ].

(** X11.  An identifier of printable characters without the double-quote
    mark, [<] and [&] reads
    back from the document: for such an identifier, with each of the 24
    tiles and each of the two markers, the document is read as a root
    element [svg] whose [id] is the identifier and whose width, height and
    view box are those of the 40 by 40 tile.  Braces in the identifier are
    text like any other. *)
Theorem identifier_reads_back (svg_id : string) :
  attr_safe svg_id = true ->
  Forall (fun it =>
      exists root,
        read (generate_road_svg svg_id (snd it)) = Some root
        /\ Svg.tag root = "svg"
        /\ Svg.attr "id" root = Some svg_id
        /\ map (fun a => Svg.attr a root) ["width"; "height"; "viewBox"]
           = [Some "40"; Some "40"; Some "0 0 40 40"])
    TILE_DEFINITIONS
  /\ Forall (fun m =>
      exists root,
        read (generate_marker_svg svg_id (snd m)) = Some root
        /\ Svg.tag root = "svg"
        /\ Svg.attr "id" root = Some svg_id
        /\ map (fun a => Svg.attr a root) ["width"; "height"; "viewBox"]
           = [Some "40"; Some "40"; Some "0 0 40 40"])
    marker_definitions.
Proof.
  intros Hv. split.
  - evaluate TILE_DEFINITIONS.
    repeat (apply List.Forall_cons; [cbn [snd]; read_with_identifier Hv|]).
    apply List.Forall_nil.
  - unfold marker_definitions.
    repeat (apply List.Forall_cons; [cbn [snd]; read_with_identifier Hv|]).
    apply List.Forall_nil.
Qed.

Lemma identifier_reads_back_witness :
  attr_safe "{size}" = true
  /\ Forall (fun m =>
       exists root,
         read (generate_marker_svg "{size}" (snd m)) = Some root
         /\ Svg.tag root = "svg"
         /\ Svg.attr "id" root = Some "{size}"
         /\ map (fun a => Svg.attr a root) ["width"; "height"; "viewBox"]
            = [Some "40"; Some "40"; Some "0 0 40 40"])
     marker_definitions.
Proof.
  split; [reflexivity|].
  exact (proj2 (identifier_reads_back "{size}" eq_refl)).
Defined.

(** ** Reading back a road document of any tile *)

Lemma scan_one (m : Svg.mode) (c : ascii) (rest : string) :
  Svg.scan m (String c rest)
  = match scan_step m c with
    | Some (Some ch, m') => prepend [ch] (Svg.scan m' rest)
    | Some (None, m') => Svg.scan m' rest
    | None => None
    end.
Proof.
  destruct m as [acc|acc [|]|acc]; cbn [Svg.scan scan_step].
  - destruct (Ascii.eqb c "<"); reflexivity.
  - reflexivity.
  - destruct (Ascii.eqb c Py.dquote); [reflexivity|].
    destruct (Ascii.eqb c ">"); [reflexivity|].
    destruct (Ascii.eqb c "<"); [reflexivity|].
    destruct (String.eqb (Svg.snoc acc c) "!--"); reflexivity.
  - destruct (Svg.strip_suffix "-->" (Svg.snoc acc c)); reflexivity.
Qed.

Lemma scan_app (s : string) (m : Svg.mode) (Z : string) :
  Svg.scan m (s ++ Z)
  = match scan_prefix m s with
    | Some (cs, m') => prepend cs (Svg.scan m' Z)
    | None => None
    end.
Proof.
  revert m. induction s as [|c s IH]; intros m.
  - cbn [scan_prefix]. change ("" ++ Z) with Z.
    destruct (Svg.scan m Z); reflexivity.
  - change (String c s ++ Z) with (String c (s ++ Z)).
    rewrite scan_one. cbn [scan_prefix].
    destruct (scan_step m c) as [[[ch|] m']|]; [| |reflexivity];
      rewrite IH; destruct (scan_prefix m' s) as [[cs m'']|]; try reflexivity.
    destruct (Svg.scan m'' Z); reflexivity.
Qed.

Lemma scan_prefix_markup (s acc : string) (q : bool) :
  no_bang acc = true -> markup_ok q s = true ->
  scan_prefix (Svg.InMarkup acc q) s
  = Some ([], Svg.InMarkup (acc ++ s) (quote_after q s)).
Proof.
  revert acc q. induction s as [|c s IH]; intros acc q Hb Hok.
  - rewrite append_empty_r. reflexivity.
  - rewrite <- snoc_append. cbn [markup_ok quote_after scan_prefix] in *.
    destruct q.
    + cbn [scan_step]. rewrite IH; [reflexivity | now apply no_bang_snoc | exact Hok].
    + cbn [scan_step]. destruct (Ascii.eqb c Py.dquote) eqn:Eq.
      * rewrite IH; [reflexivity | now apply no_bang_snoc | exact Hok].
      * apply andb_prop in Hok as [Hok Hs]. apply andb_prop in Hok as [Hgt Hlt].
        apply negb_true_iff in Hgt, Hlt. rewrite Hgt, Hlt.
        rewrite no_bang_not_comment by exact Hb.
        rewrite IH; [reflexivity | now apply no_bang_snoc | exact Hs].
Qed.

Lemma snoc_inj (a b : string) (c d : ascii) :
  Svg.snoc a c = Svg.snoc b d -> a = b /\ c = d.
Proof.
  unfold Svg.snoc. revert b. induction a as [|x a IH]; intros [|y b] H.
  - injection H as ->. auto.
  - change (String c "" = String y (b ++ String d "")) in H.
    injection H as _ H. destruct b; discriminate H.
  - change (String x (a ++ String c "") = String d "") in H.
    injection H as _ H. destruct a; discriminate H.
  - change (String x (a ++ String c "") = String y (b ++ String d "")) in H.
    injection H as -> H. destruct (IH b H) as [-> ->]. auto.
Qed.

Lemma strip_suffix_sound (suf s p : string) :
  Svg.strip_suffix suf s = Some p -> s = p ++ suf.
Proof.
  revert p. induction s as [|c s IH]; intros p; cbn [Svg.strip_suffix].
  - destruct (String.eqb_spec "" suf) as [<-|_]; [|discriminate].
    intros [= <-]. reflexivity.
  - destruct (String.eqb_spec (String c s) suf) as [<-|_].
    + intros [= <-]. reflexivity.
    + destruct (Svg.strip_suffix suf s) as [p'|]; [|discriminate].
      intros [= <-]. change (String c s = String c (p' ++ suf)).
      f_equal. now apply IH.
Qed.

Lemma strip_suffix_complete (suf p : string) :
  Svg.strip_suffix suf (p ++ suf) = Some p.
Proof.
  induction p as [|c p IH].
  - change ("" ++ suf) with suf.
    destruct suf; cbn [Svg.strip_suffix]; now rewrite String.eqb_refl.
  - change (String c p ++ suf) with (String c (p ++ suf)).
    cbn [Svg.strip_suffix]. rewrite IH.
    destruct (String.eqb_spec (String c (p ++ suf)) suf) as [E|_]; [|reflexivity].
    apply (f_equal String.length) in E.
    change (S (String.length (p ++ suf)) = String.length suf) in E.
    rewrite length_append in E. lia.
Qed.

Lemma comment_goes_on (acc : string) (c : ascii) :
  (forall p, acc <> p ++ "--") ->
  Svg.strip_suffix "-->" (Svg.snoc acc c) = None.
Proof.
  intros Hdd. destruct (Svg.strip_suffix "-->" (Svg.snoc acc c)) as [p|] eqn:E;
    [|reflexivity].
  apply strip_suffix_sound in E.
  change (p ++ "-->") with (p ++ "--" ++ ">") in E.
  rewrite <- append_assoc in E. apply snoc_inj in E as [E _].
  now apply Hdd in E.
Qed.

Lemma scan_prefix_comment (s acc : string) (prev : bool) :
  (prev = false -> forall p, acc <> p ++ "-") ->
  (forall p, acc <> p ++ "--") ->
  no_double_dash prev s = true ->
  scan_prefix (Svg.InComment acc) s = Some ([], Svg.InComment (acc ++ s)).
Proof.
  revert acc prev. induction s as [|c s IH]; intros acc prev Hd Hdd Hs.
  - rewrite append_empty_r. reflexivity.
  - rewrite <- snoc_append. cbn [scan_prefix scan_step].
    rewrite comment_goes_on by exact Hdd.
    cbn [no_double_dash] in Hs.
    rewrite (IH (Svg.snoc acc c) (Ascii.eqb c "-")); [reflexivity| | |].
    + intros Hc p E. change (p ++ "-") with (Svg.snoc p "-") in E.
      apply snoc_inj in E as [_ ->]. discriminate Hc.
    + intros p E. change (p ++ "--") with (p ++ "-" ++ "-") in E.
      rewrite <- append_assoc in E. apply snoc_inj in E as [E ->].
      change (Ascii.eqb "-" "-") with true in Hs. cbn iota in Hs.
      apply andb_prop in Hs as [Hp _]. apply negb_true_iff in Hp.
      exact (Hd Hp p E).
    + destruct (Ascii.eqb c "-"); [|exact Hs].
      apply andb_prop in Hs as [_ Hs]. exact Hs.
Qed.

Lemma scan_prefix_comment_end (acc : string) :
  scan_prefix (Svg.InComment acc) "-->"
  = Some ([Svg.CComment acc], Svg.InText "").
Proof.
  assert (N : forall a c, Ascii.eqb c ">" = false ->
                Svg.strip_suffix "-->" (Svg.snoc a c) = None).
  { intros a c Hc.
    destruct (Svg.strip_suffix "-->" (Svg.snoc a c)) as [p|] eqn:E; [|reflexivity].
    apply strip_suffix_sound in E.
    change (p ++ "-->") with (p ++ "--" ++ ">") in E.
    rewrite <- append_assoc in E. apply snoc_inj in E as [_ ->].
    discriminate Hc. }
  assert (C : Svg.snoc (Svg.snoc (Svg.snoc acc "-") "-") ">" = acc ++ "-->").
  { unfold Svg.snoc. rewrite !append_assoc. reflexivity. }
  cbn [scan_prefix scan_step]. rewrite N by reflexivity.
  cbn [scan_step]. rewrite N by reflexivity.
  cbn [scan_step]. rewrite C, strip_suffix_complete. reflexivity.
Qed.

Lemma road_rest_parts (tile : TileData) :
  Py.join Py.nl [""; GRID_LINES; ""; road_group tile; "";
                 PORT_MARKERS; SVG_FOOTER; ""]
  = before_comment ++ (" " ++ comment tile ++ " ") ++ "-->"
    ++ before_outer ++ outer_path tile ++ Py.lit "'/" ++ ">"
    ++ before_inner ++ inner_path tile ++ Py.lit "'/" ++ ">"
    ++ after_inner.
Proof.
  unfold road_group, Py.text, before_comment, before_outer, before_inner,
    after_inner.
  rewrite !join_cons, !append_assoc. reflexivity.
Qed.

Lemma tokens_app (cs1 cs2 : list Svg.chunk) :
  Svg.tokens (cs1 ++ cs2)%list
  = match Svg.tokens cs1, Svg.tokens cs2 with
    | Some ts1, Some ts2 => Some (ts1 ++ ts2)%list
    | _, _ => None
    end.
Proof.
  induction cs1 as [|[s|s|s] cs1 IH]; cbn [app Svg.tokens].
  - destruct (Svg.tokens cs2); reflexivity.
  - destruct (Svg.all_space s); rewrite IH;
      destruct (Svg.tokens cs1); destruct (Svg.tokens cs2); reflexivity.
  - rewrite IH. destruct (Svg.read_markup s);
      destruct (Svg.tokens cs1); destruct (Svg.tokens cs2); reflexivity.
  - rewrite IH.
      destruct (Svg.tokens cs1); destruct (Svg.tokens cs2); reflexivity.
Qed.

Lemma read_path_tag (v : string) :
  attr_safe v = true ->
  Svg.read_markup ((Py.lit "path d='" ++ v) ++ Py.lit "'/")
  = Some (Svg.TEmpty "path" [("d", v)]).
Proof.
  intros Hv. rewrite append_assoc.
  transitivity
    (match Svg.read_attrs (Svg.AValue "d" "") (v ++ Py.lit "'/") with
     | Some (attrs, true) => Some (Svg.TEmpty "path" attrs)
     | Some (attrs, false) => Some (Svg.TStart "path" attrs)
     | None => None
     end).
  { vm_compute. reflexivity. }
  change (Py.lit "'/") with (String Py.dquote "/").
  rewrite read_attrs_value by exact Hv.
  vm_compute. reflexivity.
Qed.

Lemma scan_prefix_tag_end (acc : string) :
  scan_prefix (Svg.InMarkup acc false) ">"
  = Some ([Svg.CMarkup acc], Svg.InText "").
Proof. reflexivity. Qed.

Lemma no_double_dash_space (s : string) (prev : bool) :
  no_double_dash prev s = true -> no_double_dash prev (s ++ " ") = true.
Proof.
  revert prev. induction s as [|c s IH]; intros prev H.
  - destruct prev; reflexivity.
  - change (String c s ++ " ") with (String c (s ++ " ")).
    cbn [no_double_dash] in *. destruct (Ascii.eqb c "-").
    + apply andb_prop in H as [-> H]. now rewrite IH.
    + now apply IH.
Qed.

Lemma comment_safe_padded (s : string) :
  comment_safe s = true -> no_double_dash false (" " ++ s ++ " ") = true.
Proof.
  intros H. apply andb_prop in H as [_ H].
  change (" " ++ s ++ " ") with (String " " (s ++ " ")).
  cbn [no_double_dash]. change (Ascii.eqb " " "-") with false. cbn iota.
  now apply no_double_dash_space.
Qed.

Lemma tokens_path (v : string) :
  attr_safe v = true ->
  Svg.tokens [Svg.CMarkup ((Py.lit "path d='" ++ v) ++ Py.lit "'/")]
  = Some [Svg.TEmpty "path" [("d", v)]].
Proof. intros Hv. cbn [Svg.tokens]. now rewrite read_path_tag. Qed.

(** Scan a closed piece of text, starting between two tags. *)
Ltac scan_text piece :=
  rewrite (scan_app piece);
  let r := eval vm_compute in (scan_prefix (Svg.InText "") piece) in
  let H := fresh "Hpiece" in
  assert (H : scan_prefix (Svg.InText "") piece = r) by (vm_compute; reflexivity);
  rewrite H; clear H; cbv beta iota.

(** X12.  Rendering and reading back, for every tile: if the identifier
    and the two paths are printable text with no double-quote mark, [<]
    or [&], and the comment is printable text with no two dashes in a
    row, the road document is read as the
    root with that identifier, the grid lines, the comment, the road group
    with the outer and then the inner path, and the port markers; so its
    only paths are the tile's two, it has the 12 port markers at the port
    positions, and 10 grid lines. *)
Theorem road_document_reads_back (svg_id : string) (tile : TileData) :
  attr_safe svg_id = true ->
  comment_safe (comment tile) = true ->
  attr_safe (outer_path tile) = true ->
  attr_safe (inner_path tile) = true ->
  read (generate_road_svg svg_id tile) = Some (road_tree svg_id tile)
  /\ all_elements "path" (road_tree svg_id tile)
     = [path_element (outer_path tile); path_element (inner_path tile)]
  /\ map centre (port_markers (road_tree svg_id tile))
     = map centre_at port_positions
  /\ grid_line_count 10 (road_tree svg_id tile).
Proof.
  intros Hv Hc Ho Hi.
  split; [|split; [vm_compute; reflexivity|];
           split; [vm_compute; reflexivity|];
           eexists; split; vm_compute; reflexivity].
  destruct (attr_safe_markup _ Ho) as [Hok_o Hq_o].
  destruct (attr_safe_markup _ Hi) as [Hok_i Hq_i].
  unfold read. rewrite generate_road_svg_total. cbn [mbind option_bind].
  rewrite road_document_split, road_rest_split.
  erewrite parse_document; [ | exact Hv | | ].
  2: {
    rewrite road_rest_parts.
    scan_text before_comment.
    rewrite (scan_app (" " ++ comment tile ++ " ")).
    rewrite (scan_prefix_comment _ "" false);
      [ | intros _ p E; destruct p; discriminate E
        | intros p E; destruct p; discriminate E
        | now apply comment_safe_padded ].
    cbv beta iota.
    rewrite (scan_app "-->"), scan_prefix_comment_end. cbv beta iota.
    scan_text before_outer.
    rewrite (scan_app (outer_path tile)).
    rewrite scan_prefix_markup by (exact Hok_o || reflexivity).
    rewrite Hq_o. cbv beta iota.
    rewrite (scan_app (Py.lit "'/")).
    rewrite scan_prefix_markup by reflexivity. cbv beta iota.
    change (quote_after true (Py.lit "'/")) with false.
    rewrite (scan_app ">"), scan_prefix_tag_end. cbv beta iota.
    scan_text before_inner.
    rewrite (scan_app (inner_path tile)).
    rewrite scan_prefix_markup by (exact Hok_i || reflexivity).
    rewrite Hq_i. cbv beta iota.
    rewrite (scan_app (Py.lit "'/")).
    rewrite scan_prefix_markup by reflexivity. cbv beta iota.
    change (quote_after true (Py.lit "'/")) with false.
    rewrite (scan_app ">"), scan_prefix_tag_end. cbv beta iota.
    let r := eval vm_compute in (Svg.scan (Svg.InText "") after_inner) in
    assert (H : Svg.scan (Svg.InText "") after_inner = r) by (vm_compute; reflexivity);
    rewrite H; clear H.
    cbv beta iota delta [prepend]. reflexivity. }
  2: {
    rewrite !tokens_app.
    pose proof (tokens_path _ Ho) as To. pose proof (tokens_path _ Hi) as Ti.
    let p := eval vm_compute in (Py.lit "path d='") in
    change (Py.lit "path d='") with p in To, Ti.
    rewrite To, Ti. vm_compute. reflexivity. }
  vm_compute. reflexivity.
Qed.


Lemma road_document_reads_back_witness :
  attr_safe "ramp-12-23" = true
  /\ read (generate_road_svg "ramp-12-23"
             (mkTileData "Ramp: Up(P12) -> Down(P23)"
                         "M 10 0 L 20 40" "M 20 0 L 30 40"))
     = Some (road_tree "ramp-12-23"
               (mkTileData "Ramp: Up(P12) -> Down(P23)"
                           "M 10 0 L 20 40" "M 20 0 L 30 40")).
Proof.
  split; [reflexivity|].
  exact (proj1 (road_document_reads_back "ramp-12-23"
                  (mkTileData "Ramp: Up(P12) -> Down(P23)"
                              "M 10 0 L 20 40" "M 20 0 L 30 40")
                  eq_refl eq_refl eq_refl eq_refl)).
Defined.
